(** * Valar email service: the gRPC handlers of [email_server.go]

    A shallow embedding of [examples/valar-server/email_server.go] and the
    properties of its request validation, provider delegation and response
    shaping.

    The handlers run in a small state monad over a [World] that holds
    what the Go code touches outside its own locals: the provider client
    behind the [ResendClient] interface (observed through the list of calls
    made on it), the logger, and the wall clock. *)

From Stdlib Require Import ZArith SpecFloat.
From stdpp Require Import base decidable option list strings gmap pretty.

Local Open Scope Z_scope.
Local Open Scope string_scope.
Local Open Scope list_scope.

(** ** Go and gRPC runtime types *)

(** Go's [int32], [int64] and [float64].  No handler does arithmetic on
    them: they are carried from the request to a formatter, or from the
    clock to the response.  A [float64] is an IEEE 754 value: a signed
    zero, a signed infinity, a NaN, or sign, mantissa and exponent. *)
Definition int32 : Type := Z.
Definition int64 : Type := Z.
Definition float64 : Type := spec_float.

(** [google.golang.org/grpc/codes]. *)
Module codes.
Inductive Code : Type :=
| OK | Canceled | Unknown | InvalidArgument | DeadlineExceeded | NotFound
| AlreadyExists | PermissionDenied | ResourceExhausted | FailedPrecondition
| Aborted | OutOfRange | Unimplemented | Internal | Unavailable | DataLoss
| Unauthenticated.

#[global] Instance Code_eq_dec : EqDecision Code.
Proof. solve_decision. Defined.
End codes.

(** [google.golang.org/grpc/status]: a protocol-level error is a code and
    a message.  [status.Error] yields Go's [nil] for [codes.OK]. *)
Module status.
Record Status : Type := mkStatus { Code : codes.Code; Message : string }.

#[global] Instance Status_eq_dec : EqDecision Status.
Proof. solve_decision. Defined.

Definition Error (c : codes.Code) (msg : string) : option Status :=
  match c with
  | codes.OK => None
  | _ => Some (mkStatus c msg)
  end.
End status.

(** A non-nil Go [error] returned by the provider.  The handlers observe
    it through [err != nil] and [err.Error()] only, so it is its text. *)
Module error.
Record t : Type := New { Error : string }.

#[global] Instance t_eq_dec : EqDecision t.
Proof. solve_decision. Defined.
End error.

(** ** Messages of [emailv1] *)

Module SendEmailRequest.
Record t : Type := mk {
  To : string;
  Subject : string;
  HtmlBody : string;
  TextBody : string }.
End SendEmailRequest.

Module SendVerificationEmailRequest.
Record t : Type := mk {
  To : string;
  VerificationToken : string;
  VerificationUrl : string;
  UserName : string }.
End SendVerificationEmailRequest.

Module SendPasswordResetEmailRequest.
Record t : Type := mk {
  To : string;
  ResetToken : string;
  ResetUrl : string;
  UserName : string;
  ExpiryMinutes : int32 }.
End SendPasswordResetEmailRequest.

Module SendWelcomeEmailRequest.
Record t : Type := mk {
  To : string;
  UserName : string;
  AccountType : string }.
End SendWelcomeEmailRequest.

Module SendTransactionNotificationRequest.
Record t : Type := mk {
  To : string;
  TransactionId : string;
  TransactionType : string;
  Amount : float64;
  Currency : string;
  RecipientName : string;
  Timestamp : string;
  Balance : float64 }.
End SendTransactionNotificationRequest.

Module SendTemplateEmailRequest.
Record t : Type := mk {
  To : string;
  TemplateId : string;
  Variables : gmap string string }.
End SendTemplateEmailRequest.

Module SendEmailResponse.
Record t : Type := mk {
  MessageId : string;
  Success : bool;
  Error : string;
  Status : string;
  Timestamp : int64 }.
End SendEmailResponse.

(** What a handler returns: Go's pair of a [SendEmailResponse] pointer and
    an [error], one of them [nil]. *)
Definition Reply : Type := option SendEmailResponse.t * option status.Status.

(** ** The provider and the logger *)

(** A call made on the [ResendClient] interface, as data. *)
Inductive ProviderCall : Type :=
| CallSendEmail (to subject html text : string)
| CallSendWithTemplate (to templateID : string) (variables : gmap string string).

(** An implementation of the [ResendClient] interface.  Each method gives
    Go's [(messageID string, err error)]; it may depend on every call made
    on the client before, which covers stateful implementations. *)
Module ResendClient.
Record t : Type := mk {
  SendEmail :
    list ProviderCall → string → string → string → string →
    string * option error.t;
  SendWithTemplate :
    list ProviderCall → string → string → gmap string string →
    string * option error.t }.
End ResendClient.

(** The answer of a client to a call, given the calls made before. *)
Definition respond (c : ResendClient.t) (history : list ProviderCall)
    (call : ProviderCall) : string * option error.t :=
  match call with
  | CallSendEmail to subject html text =>
      ResendClient.SendEmail c history to subject html text
  | CallSendWithTemplate to templateID variables =>
      ResendClient.SendWithTemplate c history to templateID variables
  end.

(** The [args ...interface{}] of a log line are strings or errors. *)
Inductive LogArg : Type :=
| AStr (s : string)
| AErr (e : error.t).

Inductive LogLevel : Type := LevelInfo | LevelError.

Record LogEntry : Type := mkLogEntry {
  level : LogLevel;
  msg : string;
  args : list LogArg }.

(** ** The world and its monad *)

Record World : Type := mkWorld {
  calls : list ProviderCall;   (* calls made on the provider so far *)
  logged : list LogEntry;      (* lines written to the logger so far *)
  now : int64 }.               (* the wall clock, in Unix seconds, as read
                                  when the response is built *)

Definition M (A : Type) : Type := World → A * World.

#[global] Instance M_ret : MRet M := λ A a w, (a, w).
#[global] Instance M_bind : MBind M :=
  λ A B f m w, let '(a, w') := m w in f a w'.

Definition result {A} (m : M A) (w : World) : A := fst (m w).
Definition after {A} (m : M A) (w : World) : World := snd (m w).

(** [time.Now().Unix()]. *)
Definition time_Now_Unix : M int64 := λ w, (now w, w).

(** [fmt.Sprintf("%d", n)] for an [int32]. *)
Definition Sprintf_d (n : int32) : string := pretty n.

(** [s.logger.Info] and [s.logger.Error]: one more line in the log. *)
Definition logger_Info (msg : string) (args : list LogArg) : M unit :=
  λ w, (tt, mkWorld (calls w) (logged w ++ [mkLogEntry LevelInfo msg args]) (now w)).

Definition logger_Error (msg : string) (args : list LogArg) : M unit :=
  λ w, (tt, mkWorld (calls w) (logged w ++ [mkLogEntry LevelError msg args]) (now w)).

(** ** The server *)

(** [EmailServer]: the provider client it was built with.  Its logger
    writes to the log of the world. *)
Record EmailServer : Type := NewEmailServer { resendClient : ResendClient.t }.

(** [s.resendClient.SendEmail(...)] and [s.resendClient.SendWithTemplate(...)]:
    the client answers and the call is on record. *)
Definition resendClient_SendEmail (s : EmailServer)
    (to subject html text : string) : M (string * option error.t) :=
  λ w, (ResendClient.SendEmail (resendClient s) (calls w) to subject html text,
        mkWorld (calls w ++ [CallSendEmail to subject html text]) (logged w) (now w)).

Definition resendClient_SendWithTemplate (s : EmailServer)
    (to templateID : string) (variables : gmap string string)
    : M (string * option error.t) :=
  λ w, (ResendClient.SendWithTemplate (resendClient s) (calls w) to templateID variables,
        mkWorld (calls w ++ [CallSendWithTemplate to templateID variables])
                (logged w) (now w)).

Section Handlers.

(** [fmt.Sprintf("%.2f", x)] on a [float64], from Go's library. *)
Variable Sprintf_2f : float64 → string.

Variable s : EmailServer.

(** [SendEmail] implements the SendEmail RPC. *)
Definition SendEmail (req : SendEmailRequest.t) : M Reply :=
  let To := SendEmailRequest.To req in
  let Subject := SendEmailRequest.Subject req in
  let HtmlBody := SendEmailRequest.HtmlBody req in
  let TextBody := SendEmailRequest.TextBody req in
  logger_Info "Received SendEmail request"
    [AStr "to"; AStr To; AStr "subject"; AStr Subject];;
  if decide (To = "") then
    mret (None, status.Error codes.InvalidArgument "recipient email is required")
  else if decide (Subject = "") then
    mret (None, status.Error codes.InvalidArgument "subject is required")
  else if decide (HtmlBody = "" ∧ TextBody = "") then
    mret (None, status.Error codes.InvalidArgument "email body is required")
  else
    '(messageID, err) ← resendClient_SendEmail s To Subject HtmlBody TextBody;
    match err with
    | Some err =>
        logger_Error "Failed to send email"
          [AStr "error"; AErr err; AStr "to"; AStr To];;
        ts ← time_Now_Unix;
        mret (Some {| SendEmailResponse.MessageId := "";
                      SendEmailResponse.Success := false;
                      SendEmailResponse.Error := error.Error err;
                      SendEmailResponse.Status := "failed";
                      SendEmailResponse.Timestamp := ts |}, None)
    | None =>
        logger_Info "Email sent successfully"
          [AStr "messageID"; AStr messageID; AStr "to"; AStr To];;
        ts ← time_Now_Unix;
        mret (Some {| SendEmailResponse.MessageId := messageID;
                      SendEmailResponse.Success := true;
                      SendEmailResponse.Error := "";
                      SendEmailResponse.Status := "sent";
                      SendEmailResponse.Timestamp := ts |}, None)
    end.

(** [SendVerificationEmail] implements the SendVerificationEmail RPC. *)
Definition SendVerificationEmail (req : SendVerificationEmailRequest.t) : M Reply :=
  let To := SendVerificationEmailRequest.To req in
  let VerificationToken := SendVerificationEmailRequest.VerificationToken req in
  logger_Info "Received SendVerificationEmail request" [AStr "to"; AStr To];;
  if decide (To = "") then
    mret (None, status.Error codes.InvalidArgument "recipient email is required")
  else if decide (VerificationToken = "") then
    mret (None, status.Error codes.InvalidArgument "verification token is required")
  else
    let verificationURL := SendVerificationEmailRequest.VerificationUrl req in
    let verificationURL :=
      if decide (verificationURL = "") then
        "https://app.cloud9.money/verify?token=" +:+ VerificationToken
      else verificationURL in
    let variables : gmap string string :=
      <["user_name" := SendVerificationEmailRequest.UserName req]>
      (<["verification_url" := verificationURL]>
      (<["verification_token" := VerificationToken]>
      (<["app_name" := "Cloud9"]>
      (<["support_email" := "support@cloud9.money"]> ∅)))) in
    '(messageID, err) ← resendClient_SendWithTemplate s To "verification-email" variables;
    match err with
    | Some err =>
        logger_Error "Failed to send verification email"
          [AStr "error"; AErr err; AStr "to"; AStr To];;
        ts ← time_Now_Unix;
        mret (Some {| SendEmailResponse.MessageId := "";
                      SendEmailResponse.Success := false;
                      SendEmailResponse.Error := error.Error err;
                      SendEmailResponse.Status := "failed";
                      SendEmailResponse.Timestamp := ts |}, None)
    | None =>
        logger_Info "Verification email sent successfully"
          [AStr "messageID"; AStr messageID; AStr "to"; AStr To];;
        ts ← time_Now_Unix;
        mret (Some {| SendEmailResponse.MessageId := messageID;
                      SendEmailResponse.Success := true;
                      SendEmailResponse.Error := "";
                      SendEmailResponse.Status := "sent";
                      SendEmailResponse.Timestamp := ts |}, None)
    end.

(** [SendPasswordResetEmail] implements the SendPasswordResetEmail RPC. *)
Definition SendPasswordResetEmail (req : SendPasswordResetEmailRequest.t) : M Reply :=
  let To := SendPasswordResetEmailRequest.To req in
  let ResetToken := SendPasswordResetEmailRequest.ResetToken req in
  logger_Info "Received SendPasswordResetEmail request" [AStr "to"; AStr To];;
  if decide (To = "") then
    mret (None, status.Error codes.InvalidArgument "recipient email is required")
  else if decide (ResetToken = "") then
    mret (None, status.Error codes.InvalidArgument "reset token is required")
  else
    let resetURL := SendPasswordResetEmailRequest.ResetUrl req in
    let resetURL :=
      if decide (resetURL = "") then
        "https://app.cloud9.money/reset-password?token=" +:+ ResetToken
      else resetURL in
    let variables : gmap string string :=
      <["user_name" := SendPasswordResetEmailRequest.UserName req]>
      (<["reset_url" := resetURL]>
      (<["reset_token" := ResetToken]>
      (<["expiry_minutes" :=
           Sprintf_d (SendPasswordResetEmailRequest.ExpiryMinutes req)]>
      (<["app_name" := "Cloud9"]>
      (<["support_email" := "support@cloud9.money"]> ∅))))) in
    '(messageID, err) ← resendClient_SendWithTemplate s To "password-reset" variables;
    match err with
    | Some err =>
        logger_Error "Failed to send password reset email"
          [AStr "error"; AErr err; AStr "to"; AStr To];;
        ts ← time_Now_Unix;
        mret (Some {| SendEmailResponse.MessageId := "";
                      SendEmailResponse.Success := false;
                      SendEmailResponse.Error := error.Error err;
                      SendEmailResponse.Status := "failed";
                      SendEmailResponse.Timestamp := ts |}, None)
    | None =>
        logger_Info "Password reset email sent successfully"
          [AStr "messageID"; AStr messageID; AStr "to"; AStr To];;
        ts ← time_Now_Unix;
        mret (Some {| SendEmailResponse.MessageId := messageID;
                      SendEmailResponse.Success := true;
                      SendEmailResponse.Error := "";
                      SendEmailResponse.Status := "sent";
                      SendEmailResponse.Timestamp := ts |}, None)
    end.

(** [SendWelcomeEmail] implements the SendWelcomeEmail RPC. *)
Definition SendWelcomeEmail (req : SendWelcomeEmailRequest.t) : M Reply :=
  let To := SendWelcomeEmailRequest.To req in
  logger_Info "Received SendWelcomeEmail request" [AStr "to"; AStr To];;
  if decide (To = "") then
    mret (None, status.Error codes.InvalidArgument "recipient email is required")
  else
    let variables : gmap string string :=
      <["user_name" := SendWelcomeEmailRequest.UserName req]>
      (<["account_type" := SendWelcomeEmailRequest.AccountType req]>
      (<["app_name" := "Cloud9"]>
      (<["dashboard_url" := "https://app.cloud9.money/dashboard"]> ∅))) in
    '(messageID, err) ← resendClient_SendWithTemplate s To "welcome-email" variables;
    match err with
    | Some err =>
        logger_Error "Failed to send welcome email"
          [AStr "error"; AErr err; AStr "to"; AStr To];;
        ts ← time_Now_Unix;
        mret (Some {| SendEmailResponse.MessageId := "";
                      SendEmailResponse.Success := false;
                      SendEmailResponse.Error := error.Error err;
                      SendEmailResponse.Status := "failed";
                      SendEmailResponse.Timestamp := ts |}, None)
    | None =>
        ts ← time_Now_Unix;
        mret (Some {| SendEmailResponse.MessageId := messageID;
                      SendEmailResponse.Success := true;
                      SendEmailResponse.Error := "";
                      SendEmailResponse.Status := "sent";
                      SendEmailResponse.Timestamp := ts |}, None)
    end.

(** [SendTransactionNotification] implements the
    SendTransactionNotification RPC. *)
Definition SendTransactionNotification
    (req : SendTransactionNotificationRequest.t) : M Reply :=
  let To := SendTransactionNotificationRequest.To req in
  let TransactionId := SendTransactionNotificationRequest.TransactionId req in
  logger_Info "Received SendTransactionNotification request"
    [AStr "to"; AStr To; AStr "txnID"; AStr TransactionId];;
  if decide (To = "") then
    mret (None, status.Error codes.InvalidArgument "recipient email is required")
  else
    let variables : gmap string string :=
      <["transaction_id" := TransactionId]>
      (<["transaction_type" := SendTransactionNotificationRequest.TransactionType req]>
      (<["amount" := Sprintf_2f (SendTransactionNotificationRequest.Amount req)]>
      (<["currency" := SendTransactionNotificationRequest.Currency req]>
      (<["recipient_name" := SendTransactionNotificationRequest.RecipientName req]>
      (<["timestamp" := SendTransactionNotificationRequest.Timestamp req]>
      (<["balance" := Sprintf_2f (SendTransactionNotificationRequest.Balance req)]>
      (<["app_name" := "Cloud9"]> ∅))))))) in
    '(messageID, err) ←
      resendClient_SendWithTemplate s To "transaction-notification" variables;
    match err with
    | Some err =>
        logger_Error "Failed to send transaction notification"
          [AStr "error"; AErr err; AStr "to"; AStr To];;
        ts ← time_Now_Unix;
        mret (Some {| SendEmailResponse.MessageId := "";
                      SendEmailResponse.Success := false;
                      SendEmailResponse.Error := error.Error err;
                      SendEmailResponse.Status := "failed";
                      SendEmailResponse.Timestamp := ts |}, None)
    | None =>
        ts ← time_Now_Unix;
        mret (Some {| SendEmailResponse.MessageId := messageID;
                      SendEmailResponse.Success := true;
                      SendEmailResponse.Error := "";
                      SendEmailResponse.Status := "sent";
                      SendEmailResponse.Timestamp := ts |}, None)
    end.

(** [SendTemplateEmail] implements the SendTemplateEmail RPC. *)
Definition SendTemplateEmail (req : SendTemplateEmailRequest.t) : M Reply :=
  let To := SendTemplateEmailRequest.To req in
  let TemplateId := SendTemplateEmailRequest.TemplateId req in
  logger_Info "Received SendTemplateEmail request"
    [AStr "to"; AStr To; AStr "templateID"; AStr TemplateId];;
  if decide (To = "") then
    mret (None, status.Error codes.InvalidArgument "recipient email is required")
  else if decide (TemplateId = "") then
    mret (None, status.Error codes.InvalidArgument "template ID is required")
  else
    '(messageID, err) ←
      resendClient_SendWithTemplate s To TemplateId
        (SendTemplateEmailRequest.Variables req);
    match err with
    | Some err =>
        logger_Error "Failed to send template email"
          [AStr "error"; AErr err; AStr "to"; AStr To;
           AStr "templateID"; AStr TemplateId];;
        ts ← time_Now_Unix;
        mret (Some {| SendEmailResponse.MessageId := "";
                      SendEmailResponse.Success := false;
                      SendEmailResponse.Error := error.Error err;
                      SendEmailResponse.Status := "failed";
                      SendEmailResponse.Timestamp := ts |}, None)
    | None =>
        ts ← time_Now_Unix;
        mret (Some {| SendEmailResponse.MessageId := messageID;
                      SendEmailResponse.Success := true;
                      SendEmailResponse.Error := "";
                      SendEmailResponse.Status := "sent";
                      SendEmailResponse.Timestamp := ts |}, None)
    end.

End Handlers.

(** ** The service: one RPC per request message *)

(** A call on the EmailService, tagged by its RPC. *)
Inductive Request : Type :=
| RawMessage (req : SendEmailRequest.t)
| Verification (req : SendVerificationEmailRequest.t)
| PasswordReset (req : SendPasswordResetEmailRequest.t)
| Welcome (req : SendWelcomeEmailRequest.t)
| TransactionNotification (req : SendTransactionNotificationRequest.t)
| Template (req : SendTemplateEmailRequest.t).

(** The routing of the registered service: each RPC runs its handler. *)
Definition dispatch (Sprintf_2f : float64 → string) (s : EmailServer)
    (r : Request) : M Reply :=
  match r with
  | RawMessage req => SendEmail s req
  | Verification req => SendVerificationEmail s req
  | PasswordReset req => SendPasswordResetEmail s req
  | Welcome req => SendWelcomeEmail s req
  | TransactionNotification req => SendTransactionNotification Sprintf_2f s req
  | Template req => SendTemplateEmail s req
  end.

(** The [To] field of a request. *)
Definition recipient (r : Request) : string :=
  match r with
  | RawMessage req => SendEmailRequest.To req
  | Verification req => SendVerificationEmailRequest.To req
  | PasswordReset req => SendPasswordResetEmailRequest.To req
  | Welcome req => SendWelcomeEmailRequest.To req
  | TransactionNotification req => SendTransactionNotificationRequest.To req
  | Template req => SendTemplateEmailRequest.To req
  end.

(** The guards of the handlers, read off their [if ... return nil, ...]
    lines: a request passes when none of them fires. *)
Definition passes_validation (r : Request) : Prop :=
  match r with
  | RawMessage req =>
      SendEmailRequest.To req ≠ "" ∧ SendEmailRequest.Subject req ≠ "" ∧
      ¬ (SendEmailRequest.HtmlBody req = "" ∧ SendEmailRequest.TextBody req = "")
  | Verification req =>
      SendVerificationEmailRequest.To req ≠ "" ∧
      SendVerificationEmailRequest.VerificationToken req ≠ ""
  | PasswordReset req =>
      SendPasswordResetEmailRequest.To req ≠ "" ∧
      SendPasswordResetEmailRequest.ResetToken req ≠ ""
  | Welcome req => SendWelcomeEmailRequest.To req ≠ ""
  | TransactionNotification req => SendTransactionNotificationRequest.To req ≠ ""
  | Template req =>
      SendTemplateEmailRequest.To req ≠ "" ∧
      SendTemplateEmailRequest.TemplateId req ≠ ""
  end.

#[global] Instance passes_validation_dec r : Decision (passes_validation r).
Proof. destruct r; simpl; apply _. Defined.

(** The reply is a protocol-level error with the given code. *)
Definition rejected_with (c : codes.Code) (rep : Reply) : Prop :=
  ∃ msg, rep = (None, Some (status.mkStatus c msg)).

(** The reply is a normal response: a message and no error. *)
Definition responds (rep : Reply) (resp : SendEmailResponse.t) : Prop :=
  rep = (Some resp, None).

(** The two response literals every handler ends with, as a function of
    the provider's answer and the clock. *)
Definition shaped (answer : string * option error.t) (ts : int64)
    : SendEmailResponse.t :=
  match answer with
  | (_, Some err) =>
      {| SendEmailResponse.MessageId := "";
         SendEmailResponse.Success := false;
         SendEmailResponse.Error := error.Error err;
         SendEmailResponse.Status := "failed";
         SendEmailResponse.Timestamp := ts |}
  | (messageID, None) =>
      {| SendEmailResponse.MessageId := messageID;
         SendEmailResponse.Success := true;
         SendEmailResponse.Error := "";
         SendEmailResponse.Status := "sent";
         SendEmailResponse.Timestamp := ts |}
  end.

(** ** The Hama client: [email_client.go] *)

(** [emailv1.EmailServiceClient], the generated client interface: one
    method per RPC, each giving Go's response pointer and error.  The
    connection, the context and its deadline live behind it: a call that
    times out or does not reach the server is a call that gives an error,
    and that error is a gRPC status. *)
Module EmailServiceClient.
Record t : Type := mk {
  SendEmail : SendEmailRequest.t → M Reply;
  SendVerificationEmail : SendVerificationEmailRequest.t → M Reply;
  SendPasswordResetEmail : SendPasswordResetEmailRequest.t → M Reply;
  SendWelcomeEmail : SendWelcomeEmailRequest.t → M Reply;
  SendTransactionNotification : SendTransactionNotificationRequest.t → M Reply;
  SendTemplateEmail : SendTemplateEmailRequest.t → M Reply }.
End EmailServiceClient.

(** The server's handlers behind the client interface: the stub of a
    client whose calls reach the registered [EmailServer] and whose
    transport hands request and reply over unchanged. *)
Definition in_process (Sprintf_2f : float64 → string) (s : EmailServer)
    : EmailServiceClient.t :=
  {| EmailServiceClient.SendEmail := SendEmail s;
     EmailServiceClient.SendVerificationEmail := SendVerificationEmail s;
     EmailServiceClient.SendPasswordResetEmail := SendPasswordResetEmail s;
     EmailServiceClient.SendWelcomeEmail := SendWelcomeEmail s;
     EmailServiceClient.SendTransactionNotification :=
       SendTransactionNotification Sprintf_2f s;
     EmailServiceClient.SendTemplateEmail := SendTemplateEmail s |}.

(** The errors [fmt.Errorf] builds: with the verb [%w], a message and the
    error it wraps; without it, a message. *)
Inductive goerror : Type :=
| wrapError (msg : string) (err : status.Status)
| errorString (msg : string).

(** How a method of the client ends: it returns Go's [error] ([nil] or
    not), or it panics on reading a field through a [nil] response. *)
Inductive Outcome : Type :=
| Returns (err : option goerror)
| Panics.

Module EmailClient.

(** [EmailClient]: the generated client it wraps. *)
Record t : Type := mk { client : EmailServiceClient.t }.

Section Methods.

(** [err.Error()] of a gRPC status error, from the gRPC library. *)
Variable Status_Error : status.Status → string.

(** [t.Format(time.RFC3339)] of the instant with the given Unix seconds,
    from Go's library. *)
Variable Format_RFC3339 : int64 → string.

Variable c : t.

(** [SendVerificationEmail] sends an email verification link to the user. *)
Definition SendVerificationEmail (email token userName : string) : M Outcome :=
  '(resp, err) ←
    EmailServiceClient.SendVerificationEmail (client c)
      {| SendVerificationEmailRequest.To := email;
         SendVerificationEmailRequest.VerificationToken := token;
         SendVerificationEmailRequest.VerificationUrl := "";
         SendVerificationEmailRequest.UserName := userName |};
  match err with
  | Some err =>
      mret (Returns (Some (wrapError ("gRPC call failed: " +:+ Status_Error err) err)))
  | None =>
      match resp with
      | None => mret Panics
      | Some resp =>
          if negb (SendEmailResponse.Success resp) then
            mret (Returns (Some (errorString
                    ("email send failed: " +:+ SendEmailResponse.Error resp))))
          else mret (Returns None)
      end
  end.

(** [SendPasswordResetEmail] sends a password reset email to the user. *)
Definition SendPasswordResetEmail (email resetToken userName : string)
    (expiryMinutes : int32) : M Outcome :=
  '(resp, err) ←
    EmailServiceClient.SendPasswordResetEmail (client c)
      {| SendPasswordResetEmailRequest.To := email;
         SendPasswordResetEmailRequest.ResetToken := resetToken;
         SendPasswordResetEmailRequest.ResetUrl := "";
         SendPasswordResetEmailRequest.UserName := userName;
         SendPasswordResetEmailRequest.ExpiryMinutes := expiryMinutes |};
  match err with
  | Some err =>
      mret (Returns (Some (wrapError ("gRPC call failed: " +:+ Status_Error err) err)))
  | None =>
      match resp with
      | None => mret Panics
      | Some resp =>
          if negb (SendEmailResponse.Success resp) then
            mret (Returns (Some (errorString
                    ("email send failed: " +:+ SendEmailResponse.Error resp))))
          else mret (Returns None)
      end
  end.

(** [SendWelcomeEmail] sends a welcome email to newly registered users. *)
Definition SendWelcomeEmail (email userName accountType : string) : M Outcome :=
  '(resp, err) ←
    EmailServiceClient.SendWelcomeEmail (client c)
      {| SendWelcomeEmailRequest.To := email;
         SendWelcomeEmailRequest.UserName := userName;
         SendWelcomeEmailRequest.AccountType := accountType |};
  match err with
  | Some err =>
      mret (Returns (Some (wrapError ("gRPC call failed: " +:+ Status_Error err) err)))
  | None =>
      match resp with
      | None => mret Panics
      | Some resp =>
          if negb (SendEmailResponse.Success resp) then
            mret (Returns (Some (errorString
                    ("email send failed: " +:+ SendEmailResponse.Error resp))))
          else mret (Returns None)
      end
  end.

(** [SendTransactionNotification] sends transaction notification email. *)
Definition SendTransactionNotification (email txnID txnType : string)
    (amount : float64) (currency : string) (balance : float64) : M Outcome :=
  t0 ← time_Now_Unix;
  '(resp, err) ←
    EmailServiceClient.SendTransactionNotification (client c)
      {| SendTransactionNotificationRequest.To := email;
         SendTransactionNotificationRequest.TransactionId := txnID;
         SendTransactionNotificationRequest.TransactionType := txnType;
         SendTransactionNotificationRequest.Amount := amount;
         SendTransactionNotificationRequest.Currency := currency;
         SendTransactionNotificationRequest.RecipientName := "";
         SendTransactionNotificationRequest.Timestamp := Format_RFC3339 t0;
         SendTransactionNotificationRequest.Balance := balance |};
  match err with
  | Some err =>
      mret (Returns (Some (wrapError ("gRPC call failed: " +:+ Status_Error err) err)))
  | None =>
      match resp with
      | None => mret Panics
      | Some resp =>
          if negb (SendEmailResponse.Success resp) then
            mret (Returns (Some (errorString
                    ("email send failed: " +:+ SendEmailResponse.Error resp))))
          else mret (Returns None)
      end
  end.

(** [SendCustomEmail] sends a custom email with subject and body. *)
Definition SendCustomEmail (to subject htmlBody textBody : string) : M Outcome :=
  '(resp, err) ←
    EmailServiceClient.SendEmail (client c)
      {| SendEmailRequest.To := to;
         SendEmailRequest.Subject := subject;
         SendEmailRequest.HtmlBody := htmlBody;
         SendEmailRequest.TextBody := textBody |};
  match err with
  | Some err =>
      mret (Returns (Some (wrapError ("gRPC call failed: " +:+ Status_Error err) err)))
  | None =>
      match resp with
      | None => mret Panics
      | Some resp =>
          if negb (SendEmailResponse.Success resp) then
            mret (Returns (Some (errorString
                    ("email send failed: " +:+ SendEmailResponse.Error resp))))
          else mret (Returns None)
      end
  end.

End Methods.

End EmailClient.

(** What every method of the client makes of a reply: the lines after
    the call, the same in all five. *)
Definition outcome_of (Status_Error : status.Status → string) (reply : Reply)
    : Outcome :=
  match reply with
  | (_, Some err) =>
      Returns (Some (wrapError ("gRPC call failed: " +:+ Status_Error err) err))
  | (None, None) => Panics
  | (Some resp, None) =>
      if negb (SendEmailResponse.Success resp) then
        Returns (Some (errorString
                   ("email send failed: " +:+ SendEmailResponse.Error resp)))
      else Returns None
  end.

(** A call on a method of the client, with its arguments. *)
Inductive ClientCall : Type :=
| CallVerificationEmail (email token userName : string)
| CallPasswordResetEmail (email resetToken userName : string)
    (expiryMinutes : int32)
| CallWelcomeEmail (email userName accountType : string)
| CallTransactionNotification (email txnID txnType : string) (amount : float64)
    (currency : string) (balance : float64)
| CallCustomEmail (to subject htmlBody textBody : string).

(** Running such a call on a client. *)
Definition EmailClient_call (Status_Error : status.Status → string)
    (Format_RFC3339 : int64 → string) (c : EmailClient.t) (call : ClientCall)
    : M Outcome :=
  match call with
  | CallVerificationEmail email token userName =>
      EmailClient.SendVerificationEmail Status_Error c email token userName
  | CallPasswordResetEmail email resetToken userName expiryMinutes =>
      EmailClient.SendPasswordResetEmail Status_Error c email resetToken userName
        expiryMinutes
  | CallWelcomeEmail email userName accountType =>
      EmailClient.SendWelcomeEmail Status_Error c email userName accountType
  | CallTransactionNotification email txnID txnType amount currency balance =>
      EmailClient.SendTransactionNotification Status_Error Format_RFC3339 c
        email txnID txnType amount currency balance
  | CallCustomEmail to subject htmlBody textBody =>
      EmailClient.SendCustomEmail Status_Error c to subject htmlBody textBody
  end.

(** The request each method builds from its arguments, read off its
    struct literal; [t0] is the reading of the clock. *)
Definition request_built (Format_RFC3339 : int64 → string) (t0 : int64)
    (call : ClientCall) : Request :=
  match call with
  | CallVerificationEmail email token userName =>
      Verification (SendVerificationEmailRequest.mk email token "" userName)
  | CallPasswordResetEmail email resetToken userName expiryMinutes =>
      PasswordReset
        (SendPasswordResetEmailRequest.mk email resetToken "" userName expiryMinutes)
  | CallWelcomeEmail email userName accountType =>
      Welcome (SendWelcomeEmailRequest.mk email userName accountType)
  | CallTransactionNotification email txnID txnType amount currency balance =>
      TransactionNotification
        (SendTransactionNotificationRequest.mk email txnID txnType amount currency
           "" (Format_RFC3339 t0) balance)
  | CallCustomEmail to subject htmlBody textBody =>
      RawMessage (SendEmailRequest.mk to subject htmlBody textBody)
  end.

(** A call on the generated client, by the request it carries. *)
Definition EmailServiceClient_call (c : EmailServiceClient.t) (r : Request)
    : M Reply :=
  match r with
  | RawMessage req => EmailServiceClient.SendEmail c req
  | Verification req => EmailServiceClient.SendVerificationEmail c req
  | PasswordReset req => EmailServiceClient.SendPasswordResetEmail c req
  | Welcome req => EmailServiceClient.SendWelcomeEmail c req
  | TransactionNotification req => EmailServiceClient.SendTransactionNotification c req
  | Template req => EmailServiceClient.SendTemplateEmail c req
  end.

(** ** Configuration from the environment: [getEnv] of both [main.go] *)

(** [os.Getenv] on the environment of the process: the value of the
    variable, empty when the variable is not set. *)
Definition os_Getenv (environ : gmap string string) (key : string) : string :=
  default "" (environ !! key).

Definition getEnv (environ : gmap string string) (key fallback : string) : string :=
  let value := os_Getenv environ key in
  if decide (value ≠ "") then value else fallback.

(** ** Concrete servers and requests for the examples *)

Module Examples.

(** A provider stub that answers every call the same way. *)
Definition stub (messageID : string) (err : option error.t) : ResendClient.t :=
  ResendClient.mk (λ _ _ _ _ _, (messageID, err)) (λ _ _ _ _, (messageID, err)).

Definition delivering (messageID : string) : EmailServer :=
  NewEmailServer (stub messageID None).

Definition failing (text : string) : EmailServer :=
  NewEmailServer (stub "" (Some (error.New text))).

(** A fresh world: no call made, nothing logged. *)
Definition w0 : World := mkWorld [] [] 1761782400.

(** A formatter for the examples; it is right on the amount [0], the
    only one they use. *)
Definition Sprintf_2f_zero (x : float64) : string := "0.00".

Definition verify_john : SendVerificationEmailRequest.t :=
  SendVerificationEmailRequest.mk "user@example.com" "abc123" "" "John Doe".

Definition welcome_john : SendWelcomeEmailRequest.t :=
  SendWelcomeEmailRequest.mk "user@example.com" "John Doe" "personal".

Definition template_welcome : SendTemplateEmailRequest.t :=
  SendTemplateEmailRequest.mk "a@b.com" "welcome-email" ∅.

Definition raw_no_recipient : SendEmailRequest.t :=
  SendEmailRequest.mk "" "x" "y" "".

Definition raw_hello : SendEmailRequest.t :=
  SendEmailRequest.mk "a@b.com" "Hello" "" "plain text".

Definition raw_no_subject : SendEmailRequest.t :=
  SendEmailRequest.mk "a@b.com" "" "<p>hi</p>" "".

Definition verify_no_token : SendVerificationEmailRequest.t :=
  SendVerificationEmailRequest.mk "user@example.com" "" "" "John Doe".

Definition reset_no_token : SendPasswordResetEmailRequest.t :=
  SendPasswordResetEmailRequest.mk "user@example.com" "" "" "John Doe" 30.

Definition txn_no_id : SendTransactionNotificationRequest.t :=
  SendTransactionNotificationRequest.mk
    "a@b.com" "" "credit" (S754_zero false) "KES" ""
    "2025-10-30T00:00:00Z" (S754_zero false).

(** The name of a code and the text of a status error, as the gRPC
    library prints them. *)
Definition Code_String (c : codes.Code) : string :=
  match c with
  | codes.OK => "OK"
  | codes.Canceled => "Canceled"
  | codes.Unknown => "Unknown"
  | codes.InvalidArgument => "InvalidArgument"
  | codes.DeadlineExceeded => "DeadlineExceeded"
  | codes.NotFound => "NotFound"
  | codes.AlreadyExists => "AlreadyExists"
  | codes.PermissionDenied => "PermissionDenied"
  | codes.ResourceExhausted => "ResourceExhausted"
  | codes.FailedPrecondition => "FailedPrecondition"
  | codes.Aborted => "Aborted"
  | codes.OutOfRange => "OutOfRange"
  | codes.Unimplemented => "Unimplemented"
  | codes.Internal => "Internal"
  | codes.Unavailable => "Unavailable"
  | codes.DataLoss => "DataLoss"
  | codes.Unauthenticated => "Unauthenticated"
  end.

Definition Status_Error (st : status.Status) : string :=
  "rpc error: code = " +:+ Code_String (status.Code st) +:+
  " desc = " +:+ status.Message st.

(** A formatter of instants for the examples; it is right, in UTC, on
    the clock of [w0], the only instant they use. *)
Definition Format_RFC3339_w0 (t : int64) : string := "2025-10-30T00:00:00Z".

(** A client whose calls all fail with the given status, and one whose
    calls all give the given response. *)
Definition unreachable (st : status.Status) : EmailClient.t :=
  EmailClient.mk
    (EmailServiceClient.mk
       (λ _, mret (None, Some st)) (λ _, mret (None, Some st))
       (λ _, mret (None, Some st)) (λ _, mret (None, Some st))
       (λ _, mret (None, Some st)) (λ _, mret (None, Some st))).

Definition answering (resp : SendEmailResponse.t) : EmailClient.t :=
  EmailClient.mk
    (EmailServiceClient.mk
       (λ _, mret (Some resp, None)) (λ _, mret (Some resp, None))
       (λ _, mret (Some resp, None)) (λ _, mret (Some resp, None))
       (λ _, mret (Some resp, None)) (λ _, mret (Some resp, None))).

(** A client served in process by a server. *)
Definition served_by (s : EmailServer) : EmailClient.t :=
  EmailClient.mk (in_process Sprintf_2f_zero s).

Definition reset_explicit : SendPasswordResetEmailRequest.t :=
  SendPasswordResetEmailRequest.mk
    "user@example.com" "r3s3t" "https://cloud9.money/r?t=r3s3t" "John Doe" 0.

Definition verify_explicit : SendVerificationEmailRequest.t :=
  SendVerificationEmailRequest.mk
    "user@example.com" "abc123" "https://cloud9.money/v/abc123" "John Doe".

Definition template_custom : SendTemplateEmailRequest.t :=
  SendTemplateEmailRequest.mk "a@b.com" "monthly-statement"
    {[ "month" := "October" ]}.

Definition template_no_id : SendTemplateEmailRequest.t :=
  SendTemplateEmailRequest.mk "a@b.com" "" ∅.

End Examples.

(** ** Running a handler *)

Ltac unfold_handlers :=
  unfold result, after, dispatch, SendEmail, SendVerificationEmail,
    SendPasswordResetEmail, SendWelcomeEmail, SendTransactionNotification,
    SendTemplateEmail, resendClient_SendEmail, resendClient_SendWithTemplate,
    logger_Info, logger_Error, time_Now_Unix, mbind, M_bind, mret, M_ret in *.

Ltac split_guards :=
  repeat match goal with
    | |- context [decide ?P] => destruct (decide P)
    end.

Ltac split_answer :=
  match goal with
  | |- context [ResendClient.SendEmail ?c ?h ?a ?b ?d ?e] =>
      destruct (ResendClient.SendEmail c h a b d e) as [? [?|]] eqn:?
  | |- context [ResendClient.SendWithTemplate ?c ?h ?a ?b ?d] =>
      destruct (ResendClient.SendWithTemplate c h a b d) as [? [?|]] eqn:?
  end.

Ltac unfold_client :=
  unfold EmailClient_call, EmailServiceClient_call, request_built,
    EmailClient.SendVerificationEmail, EmailClient.SendPasswordResetEmail,
    EmailClient.SendWelcomeEmail, EmailClient.SendTransactionNotification,
    EmailClient.SendCustomEmail, in_process in *; simpl in *.

(** ** What every handler does *)

Section Dispatch.

Variable Sprintf_2f : float64 → string.
Variable s : EmailServer.

(** A request that fails a guard is answered with [InvalidArgument] and
    the provider is not called. *)
Lemma dispatch_rejects (r : Request) (w : World) :
  ¬ passes_validation r →
  rejected_with codes.InvalidArgument (result (dispatch Sprintf_2f s r) w) ∧
  calls (after (dispatch Sprintf_2f s r) w) = calls w.
Proof.
  intros Hbad. unfold rejected_with.
  destruct r as [req|req|req|req|req|req]; destruct req; simpl in Hbad;
    unfold_handlers; simpl; split_guards; simpl;
    try (split; [eexists; reflexivity | reflexivity]);
    exfalso; apply Hbad; tauto.
Qed.

(** A request that passes the guards makes exactly one provider call and
    is answered with the shaped answer of the provider. *)
Lemma dispatch_accepts (r : Request) (w : World) :
  passes_validation r →
  ∃ call,
    calls (after (dispatch Sprintf_2f s r) w) = calls w ++ [call] ∧
    result (dispatch Sprintf_2f s r) w =
      (Some (shaped (respond (resendClient s) (calls w) call) (now w)), None).
Proof.
  intros Hok.
  destruct r as [req|req|req|req|req|req]; destruct req; simpl in Hok;
    unfold_handlers; simpl; split_guards; simpl; try tauto;
    (eexists; split;
     [ split_answer; reflexivity
     | simpl; split_answer; reflexivity ]).
Qed.

(** The guards are all there is to validation: a request gets a response
    exactly when it passes them. *)
Lemma responds_iff_passes_validation (r : Request) (w : World) :
  (∃ resp, responds (result (dispatch Sprintf_2f s r) w) resp) ↔
  passes_validation r.
Proof.
  split.
  - intros [resp Hresp]. destruct (decide (passes_validation r)) as [Hok | Hbad];
      [exact Hok |].
    destruct (dispatch_rejects r w Hbad) as [[msg Hrej] _].
    unfold responds in Hresp. rewrite Hrej in Hresp. discriminate Hresp.
  - intros Hok. destruct (dispatch_accepts r w Hok) as (call & _ & Hres).
    eexists. exact Hres.
Qed.

End Dispatch.

(** ** Three runs *)

(** A verification request, the provider delivering "msg_001". *)
Example verification_delivered :
  result (dispatch Examples.Sprintf_2f_zero (Examples.delivering "msg_001")
            (Verification Examples.verify_john)) Examples.w0 =
    (Some {| SendEmailResponse.MessageId := "msg_001";
             SendEmailResponse.Success := true;
             SendEmailResponse.Error := "";
             SendEmailResponse.Status := "sent";
             SendEmailResponse.Timestamp := 1761782400 |}, None).
Proof. reflexivity. Qed.

(** A raw message without recipient: rejected, and the provider idle. *)
Example raw_message_without_recipient :
  dispatch Examples.Sprintf_2f_zero (Examples.delivering "msg_001")
    (RawMessage Examples.raw_no_recipient) Examples.w0 =
    ((None, Some (status.mkStatus codes.InvalidArgument "recipient email is required")),
     mkWorld []
       [mkLogEntry LevelInfo "Received SendEmail request"
          [AStr "to"; AStr ""; AStr "subject"; AStr "x"]]
       1761782400).
Proof. reflexivity. Qed.

(** A template request, the provider failing with "quota exceeded". *)
Example template_quota_exceeded :
  result (dispatch Examples.Sprintf_2f_zero (Examples.failing "quota exceeded")
            (Template Examples.template_welcome)) Examples.w0 =
    (Some {| SendEmailResponse.MessageId := "";
             SendEmailResponse.Success := false;
             SendEmailResponse.Error := "quota exceeded";
             SendEmailResponse.Status := "failed";
             SendEmailResponse.Timestamp := 1761782400 |}, None).
Proof. reflexivity. Qed.

(** ** Validation *)

(** C2. For every operation, a request whose recipient field is empty is
    rejected with the protocol-level error [InvalidArgument], with the
    message "recipient email is required"; no response message is
    returned. *)
Theorem empty_recipient_rejected
    (Sprintf_2f : float64 → string) (s : EmailServer) (r : Request) (w : World) :
  recipient r = "" →
  result (dispatch Sprintf_2f s r) w =
    (None, Some (status.mkStatus codes.InvalidArgument "recipient email is required")) ∧
  rejected_with codes.InvalidArgument (result (dispatch Sprintf_2f s r) w).
Proof.
  intros Hto.
  assert (result (dispatch Sprintf_2f s r) w =
    (None, Some (status.mkStatus codes.InvalidArgument "recipient email is required")))
    as Hres.
  { destruct r as [req|req|req|req|req|req]; destruct req; simpl in Hto; subst;
      reflexivity. }
  split; [exact Hres | rewrite Hres; eexists; reflexivity].
Qed.

Lemma empty_recipient_rejected_witness :
  recipient (RawMessage Examples.raw_no_recipient) = "" ∧
  rejected_with codes.InvalidArgument
    (result (dispatch Examples.Sprintf_2f_zero (Examples.delivering "msg_001")
               (RawMessage Examples.raw_no_recipient)) Examples.w0).
Proof.
  split; [reflexivity |].
  apply (empty_recipient_rejected Examples.Sprintf_2f_zero
           (Examples.delivering "msg_001")
           (RawMessage Examples.raw_no_recipient) Examples.w0).
  reflexivity.
Defined.

(** C5. For every operation and every request that fails validation, the
    call returns the protocol-level error and the provider is not invoked:
    the list of provider calls, and so their count, is unchanged. *)
Theorem invalid_request_makes_no_provider_call
    (Sprintf_2f : float64 → string) (s : EmailServer) (r : Request) (w : World) :
  ¬ passes_validation r →
  rejected_with codes.InvalidArgument (result (dispatch Sprintf_2f s r) w) ∧
  calls (after (dispatch Sprintf_2f s r) w) = calls w ∧
  length (calls (after (dispatch Sprintf_2f s r) w)) = length (calls w).
Proof.
  intros Hbad.
  destruct (dispatch_rejects Sprintf_2f s r w Hbad) as [Hrej Hcalls].
  repeat split; [exact Hrej | exact Hcalls | now rewrite Hcalls].
Qed.

Lemma invalid_request_makes_no_provider_call_witness :
  ¬ passes_validation (RawMessage Examples.raw_no_recipient) ∧
  calls (after (dispatch Examples.Sprintf_2f_zero (Examples.delivering "msg_001")
                  (RawMessage Examples.raw_no_recipient)) Examples.w0) = [].
Proof.
  assert (¬ passes_validation (RawMessage Examples.raw_no_recipient)) as Hbad.
  { simpl. intros [Hto _]. apply Hto. reflexivity. }
  split; [exact Hbad |].
  apply (invalid_request_makes_no_provider_call Examples.Sprintf_2f_zero
           (Examples.delivering "msg_001")
           (RawMessage Examples.raw_no_recipient) Examples.w0 Hbad).
Defined.

(** C8. A SendEmail request with a non-empty recipient is rejected with
    [InvalidArgument] if and only if its subject is empty or both its HTML
    body and its text body are empty. *)
Theorem raw_message_rejected_iff
    (s : EmailServer) (req : SendEmailRequest.t) (w : World) :
  SendEmailRequest.To req ≠ "" →
  rejected_with codes.InvalidArgument (result (SendEmail s req) w) ↔
  SendEmailRequest.Subject req = "" ∨
  (SendEmailRequest.HtmlBody req = "" ∧ SendEmailRequest.TextBody req = "").
Proof.
  intros Hto. unfold rejected_with. destruct req as [to subject html text].
  simpl in *. unfold_handlers. simpl. split_guards; simpl; try tauto.
  - split; [tauto | intros _; eexists; reflexivity].
  - split; [tauto | intros _; eexists; reflexivity].
  - split; [| tauto]. split_answer; intros [msg Hrej]; discriminate.
Qed.

Lemma raw_message_rejected_iff_witness :
  SendEmailRequest.To Examples.raw_no_subject ≠ "" ∧
  rejected_with codes.InvalidArgument
    (result (SendEmail (Examples.delivering "msg_001") Examples.raw_no_subject)
            Examples.w0) ∧
  ¬ rejected_with codes.InvalidArgument
    (result (SendEmail (Examples.delivering "msg_001") Examples.raw_hello)
            Examples.w0).
Proof.
  assert (SendEmailRequest.To Examples.raw_no_subject ≠ "") as Hto
    by (simpl; discriminate).
  assert (SendEmailRequest.To Examples.raw_hello ≠ "") as Hto'
    by (simpl; discriminate).
  split; [exact Hto |]. split.
  - apply (raw_message_rejected_iff (Examples.delivering "msg_001")
             Examples.raw_no_subject Examples.w0 Hto).
    left. reflexivity.
  - intros Hrej.
    apply (raw_message_rejected_iff (Examples.delivering "msg_001")
             Examples.raw_hello Examples.w0 Hto') in Hrej.
    simpl in Hrej. destruct Hrej as [Hsub | [_ Htext]]; discriminate.
Defined.

(** C9. A SendVerificationEmail request, or a SendPasswordResetEmail
    request, with a non-empty recipient and an empty token is rejected with
    [InvalidArgument]. *)
Theorem empty_token_rejected (s : EmailServer) (w : World) :
  (∀ req : SendVerificationEmailRequest.t,
     SendVerificationEmailRequest.To req ≠ "" →
     SendVerificationEmailRequest.VerificationToken req = "" →
     result (SendVerificationEmail s req) w =
       (None, Some (status.mkStatus codes.InvalidArgument
                      "verification token is required"))) ∧
  (∀ req : SendPasswordResetEmailRequest.t,
     SendPasswordResetEmailRequest.To req ≠ "" →
     SendPasswordResetEmailRequest.ResetToken req = "" →
     result (SendPasswordResetEmail s req) w =
       (None, Some (status.mkStatus codes.InvalidArgument
                      "reset token is required"))).
Proof.
  split; intros req Hto Htok; destruct req; simpl in *; subst;
    unfold_handlers; simpl; split_guards; simpl; tauto.
Qed.

Lemma empty_token_rejected_witness :
  rejected_with codes.InvalidArgument
    (result (SendVerificationEmail (Examples.delivering "msg_001")
               Examples.verify_no_token) Examples.w0) ∧
  rejected_with codes.InvalidArgument
    (result (SendPasswordResetEmail (Examples.delivering "msg_001")
               Examples.reset_no_token) Examples.w0).
Proof.
  destruct (empty_token_rejected (Examples.delivering "msg_001") Examples.w0)
    as [Hverify Hreset].
  split.
  - rewrite (Hverify Examples.verify_no_token);
      [eexists; reflexivity | simpl; discriminate | reflexivity].
  - rewrite (Hreset Examples.reset_no_token);
      [eexists; reflexivity | simpl; discriminate | reflexivity].
Defined.

(** ** Templates and their variables *)

(** C7. For every valid SendVerificationEmail request whose
    [VerificationUrl] is empty, the variable map passed to the provider
    has [verification_url] equal to
    "https://app.cloud9.money/verify?token=" followed by the request's
    verification token. *)
Theorem default_verification_url
    (s : EmailServer) (req : SendVerificationEmailRequest.t) (w : World) :
  SendVerificationEmailRequest.To req ≠ "" →
  SendVerificationEmailRequest.VerificationToken req ≠ "" →
  SendVerificationEmailRequest.VerificationUrl req = "" →
  ∃ variables : gmap string string,
    calls (after (SendVerificationEmail s req) w) =
      calls w ++ [CallSendWithTemplate (SendVerificationEmailRequest.To req)
                    "verification-email" variables] ∧
    variables !! "verification_url" =
      Some ("https://app.cloud9.money/verify?token=" +:+
            SendVerificationEmailRequest.VerificationToken req).
Proof.
  intros Hto Htok Hurl. destruct req as [to token url name].
  simpl in *. subst url. unfold_handlers. simpl.
  destruct (decide (to = "")); [tauto |].
  destruct (decide (token = "")); [tauto |].
  destruct (decide ("" = "")) as [_ | Hne]; [| now destruct Hne].
  eexists. split; [split_answer; reflexivity | reflexivity].
Qed.

Lemma default_verification_url_witness :
  ∃ variables : gmap string string,
    calls (after (SendVerificationEmail (Examples.delivering "msg_001")
                    Examples.verify_john) Examples.w0) =
      [CallSendWithTemplate "user@example.com" "verification-email" variables] ∧
    variables !! "verification_url" =
      Some "https://app.cloud9.money/verify?token=abc123".
Proof.
  apply (default_verification_url (Examples.delivering "msg_001")
           Examples.verify_john Examples.w0);
    simpl; solve [discriminate | reflexivity].
Defined.

(** C10. Each fixed-purpose handler calls the provider's
    [SendWithTemplate] with its own constant template identifier, whatever
    the request holds: "verification-email" with [app_name = "Cloud9"] and
    [support_email = "support@cloud9.money"] among the variables for
    SendVerificationEmail, "password-reset" for SendPasswordResetEmail,
    "welcome-email" for SendWelcomeEmail and "transaction-notification" for
    SendTransactionNotification. *)
Theorem fixed_templates
    (Sprintf_2f : float64 → string) (s : EmailServer) (w : World) :
  (∀ req : SendVerificationEmailRequest.t,
     passes_validation (Verification req) →
     ∃ variables : gmap string string,
       calls (after (SendVerificationEmail s req) w) =
         calls w ++ [CallSendWithTemplate (SendVerificationEmailRequest.To req)
                       "verification-email" variables] ∧
       variables !! "app_name" = Some "Cloud9" ∧
       variables !! "support_email" = Some "support@cloud9.money") ∧
  (∀ req : SendPasswordResetEmailRequest.t,
     passes_validation (PasswordReset req) →
     ∃ variables : gmap string string,
       calls (after (SendPasswordResetEmail s req) w) =
         calls w ++ [CallSendWithTemplate (SendPasswordResetEmailRequest.To req)
                       "password-reset" variables] ∧
       variables !! "app_name" = Some "Cloud9" ∧
       variables !! "support_email" = Some "support@cloud9.money") ∧
  (∀ req : SendWelcomeEmailRequest.t,
     passes_validation (Welcome req) →
     ∃ variables : gmap string string,
       calls (after (SendWelcomeEmail s req) w) =
         calls w ++ [CallSendWithTemplate (SendWelcomeEmailRequest.To req)
                       "welcome-email" variables] ∧
       variables !! "app_name" = Some "Cloud9") ∧
  (∀ req : SendTransactionNotificationRequest.t,
     passes_validation (TransactionNotification req) →
     ∃ variables : gmap string string,
       calls (after (SendTransactionNotification Sprintf_2f s req) w) =
         calls w ++ [CallSendWithTemplate (SendTransactionNotificationRequest.To req)
                       "transaction-notification" variables] ∧
       variables !! "app_name" = Some "Cloud9").
Proof.
  repeat split; intros req Hok; destruct req; simpl in Hok;
    unfold_handlers; simpl; split_guards; simpl; try tauto;
    (eexists; split; [split_answer; reflexivity | repeat split; reflexivity]).
Qed.

Lemma fixed_templates_witness :
  passes_validation (Verification Examples.verify_john) ∧
  ∃ variables : gmap string string,
    calls (after (SendVerificationEmail (Examples.failing "quota exceeded")
                    Examples.verify_john) Examples.w0) =
      [CallSendWithTemplate "user@example.com" "verification-email" variables] ∧
    variables !! "app_name" = Some "Cloud9" ∧
    variables !! "support_email" = Some "support@cloud9.money".
Proof.
  assert (passes_validation (Verification Examples.verify_john)) as Hok
    by (simpl; split; discriminate).
  split; [exact Hok |].
  exact (proj1 (fixed_templates Examples.Sprintf_2f_zero
                  (Examples.failing "quota exceeded") Examples.w0)
           Examples.verify_john Hok).
Defined.

(** ** SendTransactionNotification and the transaction identifier *)

(** C6, as the handler has it.  SendTransactionNotification requires the
    recipient only: it is rejected with [InvalidArgument], before any
    provider call, exactly when the recipient is empty.  With a recipient,
    whatever the transaction identifier (empty included), the provider is
    called once with the template "transaction-notification" and the
    identifier under [transaction_id]. *)
Theorem transaction_notification_requires_recipient_only
    (Sprintf_2f : float64 → string) (s : EmailServer)
    (req : SendTransactionNotificationRequest.t) (w : World) :
  (rejected_with codes.InvalidArgument
     (result (SendTransactionNotification Sprintf_2f s req) w) ↔
   SendTransactionNotificationRequest.To req = "") ∧
  (SendTransactionNotificationRequest.To req = "" →
   calls (after (SendTransactionNotification Sprintf_2f s req) w) = calls w) ∧
  (SendTransactionNotificationRequest.To req ≠ "" →
   ∃ variables : gmap string string,
     calls (after (SendTransactionNotification Sprintf_2f s req) w) =
       calls w ++ [CallSendWithTemplate (SendTransactionNotificationRequest.To req)
                     "transaction-notification" variables] ∧
     variables !! "transaction_id" =
       Some (SendTransactionNotificationRequest.TransactionId req)).
Proof.
  unfold rejected_with. destruct req. simpl.
  unfold_handlers. simpl. split_guards; simpl.
  - repeat split; try tauto. intros _. eexists. reflexivity.
  - repeat split; try tauto.
    + split_answer; intros [msg Hrej]; discriminate.
    + intros _. eexists. split; [split_answer; reflexivity | reflexivity].
Qed.

Lemma transaction_notification_requires_recipient_only_witness :
  SendTransactionNotificationRequest.To Examples.txn_no_id ≠ "" ∧
  ∃ variables : gmap string string,
    calls (after (SendTransactionNotification Examples.Sprintf_2f_zero
                    (Examples.delivering "msg_001") Examples.txn_no_id)
                 Examples.w0) =
      [CallSendWithTemplate "a@b.com" "transaction-notification" variables] ∧
    variables !! "transaction_id" = Some "".
Proof.
  assert (SendTransactionNotificationRequest.To Examples.txn_no_id ≠ "") as Hto
    by (simpl; discriminate).
  split; [exact Hto |].
  exact (proj2 (proj2 (transaction_notification_requires_recipient_only
                         Examples.Sprintf_2f_zero (Examples.delivering "msg_001")
                         Examples.txn_no_id Examples.w0)) Hto).
Defined.

(** C6, as stated, fails: a request with a recipient and an empty
    transaction identifier is not rejected.  The provider is called, with
    [transaction_id] empty, and its answer is returned as a response. *)
Lemma empty_transaction_id_accepted :
  SendTransactionNotificationRequest.TransactionId Examples.txn_no_id = "" ∧
  ¬ rejected_with codes.InvalidArgument
      (result (SendTransactionNotification Examples.Sprintf_2f_zero
                 (Examples.delivering "msg_001") Examples.txn_no_id) Examples.w0) ∧
  result (SendTransactionNotification Examples.Sprintf_2f_zero
            (Examples.delivering "msg_001") Examples.txn_no_id) Examples.w0 =
    (Some {| SendEmailResponse.MessageId := "msg_001";
             SendEmailResponse.Success := true;
             SendEmailResponse.Error := "";
             SendEmailResponse.Status := "sent";
             SendEmailResponse.Timestamp := now Examples.w0 |}, None) ∧
  length (calls (after (SendTransactionNotification Examples.Sprintf_2f_zero
                          (Examples.delivering "msg_001") Examples.txn_no_id)
                       Examples.w0)) = 1%nat.
Proof.
  split; [reflexivity |]. split; [| split; reflexivity].
  intros [msg Hrej]. discriminate Hrej.
Qed.

(** ** Shaping the provider's answer *)

(** C1, as the handlers have it.  For every operation and every request
    that passes validation, the provider is called once, and if it returns
    an error the RPC returns a normal response, not a protocol-level error,
    with [Success = false], [Error] equal to the text of the provider's
    error (non-empty when that text is), [MessageId] empty and
    [Status = "failed"]. *)
Theorem provider_error_shaped
    (Sprintf_2f : float64 → string) (s : EmailServer) (r : Request) (w : World) :
  passes_validation r →
  ∃ call,
    calls (after (dispatch Sprintf_2f s r) w) = calls w ++ [call] ∧
    ∀ messageID err,
      respond (resendClient s) (calls w) call = (messageID, Some err) →
      ∃ resp,
        responds (result (dispatch Sprintf_2f s r) w) resp ∧
        SendEmailResponse.Success resp = false ∧
        SendEmailResponse.Error resp = error.Error err ∧
        (error.Error err ≠ "" → SendEmailResponse.Error resp ≠ "") ∧
        SendEmailResponse.MessageId resp = "" ∧
        SendEmailResponse.Status resp = "failed" ∧
        SendEmailResponse.Timestamp resp = now w.
Proof.
  intros Hok.
  destruct (dispatch_accepts Sprintf_2f s r w Hok) as (call & Hcalls & Hres).
  exists call. split; [exact Hcalls |].
  intros messageID err Hanswer. rewrite Hanswer in Hres. simpl in Hres.
  eexists. split; [exact Hres |]. simpl. repeat split; trivial.
Qed.

Lemma provider_error_shaped_witness :
  passes_validation (Template Examples.template_welcome) ∧
  ∃ call,
    calls (after (dispatch Examples.Sprintf_2f_zero
                    (Examples.failing "quota exceeded")
                    (Template Examples.template_welcome)) Examples.w0) =
      calls Examples.w0 ++ [call] ∧
    ∀ messageID err,
      respond (resendClient (Examples.failing "quota exceeded"))
        (calls Examples.w0) call = (messageID, Some err) →
      ∃ resp,
        responds (result (dispatch Examples.Sprintf_2f_zero
                            (Examples.failing "quota exceeded")
                            (Template Examples.template_welcome)) Examples.w0)
                 resp ∧
        SendEmailResponse.Success resp = false ∧
        SendEmailResponse.Error resp = error.Error err ∧
        (error.Error err ≠ "" → SendEmailResponse.Error resp ≠ "") ∧
        SendEmailResponse.MessageId resp = "" ∧
        SendEmailResponse.Status resp = "failed" ∧
        SendEmailResponse.Timestamp resp = now Examples.w0.
Proof.
  assert (passes_validation (Template Examples.template_welcome)) as Hok
    by (simpl; split; discriminate).
  split; [exact Hok |].
  exact (provider_error_shaped Examples.Sprintf_2f_zero
           (Examples.failing "quota exceeded")
           (Template Examples.template_welcome) Examples.w0 Hok).
Defined.

(** C1, as stated, fails on two counts.  When the provider fails with
    "quota exceeded" the response carries the status "failed", not
    "Failed"; and when the provider fails with an error whose text is empty
    the response carries an empty [Error]. *)
Lemma provider_error_not_as_claimed :
  (passes_validation (Template Examples.template_welcome) ∧
   respond (resendClient (Examples.failing "quota exceeded")) (calls Examples.w0)
     (CallSendWithTemplate "a@b.com" "welcome-email" ∅) =
     ("", Some (error.New "quota exceeded")) ∧
   result (dispatch Examples.Sprintf_2f_zero (Examples.failing "quota exceeded")
             (Template Examples.template_welcome)) Examples.w0 =
     (Some {| SendEmailResponse.MessageId := "";
              SendEmailResponse.Success := false;
              SendEmailResponse.Error := "quota exceeded";
              SendEmailResponse.Status := "failed";
              SendEmailResponse.Timestamp := now Examples.w0 |}, None) ∧
   ¬ ∃ resp,
       responds (result (dispatch Examples.Sprintf_2f_zero
                           (Examples.failing "quota exceeded")
                           (Template Examples.template_welcome)) Examples.w0)
                resp ∧
       SendEmailResponse.Success resp = false ∧
       SendEmailResponse.Error resp = "quota exceeded" ∧
       SendEmailResponse.MessageId resp = "" ∧
       SendEmailResponse.Status resp = "Failed") ∧
  (passes_validation (Template Examples.template_welcome) ∧
   respond (resendClient (Examples.failing "")) (calls Examples.w0)
     (CallSendWithTemplate "a@b.com" "welcome-email" ∅) =
     ("", Some (error.New "")) ∧
   ¬ ∃ resp,
       responds (result (dispatch Examples.Sprintf_2f_zero (Examples.failing "")
                           (Template Examples.template_welcome)) Examples.w0)
                resp ∧
       SendEmailResponse.Success resp = false ∧
       SendEmailResponse.Error resp ≠ "").
Proof.
  assert (passes_validation (Template Examples.template_welcome)) as Hok
    by (simpl; split; discriminate).
  split.
  - split; [exact Hok |]. split; [reflexivity |]. split; [reflexivity |].
    intros (resp & Hresp & _ & _ & _ & Hstatus).
    unfold responds in Hresp. injection Hresp as Hresp. subst resp.
    discriminate Hstatus.
  - split; [exact Hok |]. split; [reflexivity |].
    intros (resp & Hresp & _ & Herror).
    unfold responds in Hresp. injection Hresp as Hresp. subst resp.
    apply Herror. reflexivity.
Qed.

(** C3, as the handlers have it.  For every operation and every request
    that passes validation, if the provider succeeds with the message
    identifier [m], the response has [Success = true], [MessageId = m]
    (non-empty when [m] is), [Error] empty and [Status = "sent"]. *)
Theorem provider_success_shaped
    (Sprintf_2f : float64 → string) (s : EmailServer) (r : Request) (w : World) :
  passes_validation r →
  ∃ call,
    calls (after (dispatch Sprintf_2f s r) w) = calls w ++ [call] ∧
    ∀ m,
      respond (resendClient s) (calls w) call = (m, None) →
      ∃ resp,
        responds (result (dispatch Sprintf_2f s r) w) resp ∧
        SendEmailResponse.Success resp = true ∧
        SendEmailResponse.MessageId resp = m ∧
        (m ≠ "" → SendEmailResponse.MessageId resp ≠ "") ∧
        SendEmailResponse.Error resp = "" ∧
        SendEmailResponse.Status resp = "sent" ∧
        SendEmailResponse.Timestamp resp = now w.
Proof.
  intros Hok.
  destruct (dispatch_accepts Sprintf_2f s r w Hok) as (call & Hcalls & Hres).
  exists call. split; [exact Hcalls |].
  intros m Hanswer. rewrite Hanswer in Hres. simpl in Hres.
  eexists. split; [exact Hres |]. simpl. repeat split; trivial.
Qed.

Lemma provider_success_shaped_witness :
  passes_validation (Verification Examples.verify_john) ∧
  ∃ call,
    calls (after (dispatch Examples.Sprintf_2f_zero (Examples.delivering "msg_001")
                    (Verification Examples.verify_john)) Examples.w0) =
      calls Examples.w0 ++ [call] ∧
    ∀ m,
      respond (resendClient (Examples.delivering "msg_001"))
        (calls Examples.w0) call = (m, None) →
      ∃ resp,
        responds (result (dispatch Examples.Sprintf_2f_zero
                            (Examples.delivering "msg_001")
                            (Verification Examples.verify_john)) Examples.w0)
                 resp ∧
        SendEmailResponse.Success resp = true ∧
        SendEmailResponse.MessageId resp = m ∧
        (m ≠ "" → SendEmailResponse.MessageId resp ≠ "") ∧
        SendEmailResponse.Error resp = "" ∧
        SendEmailResponse.Status resp = "sent" ∧
        SendEmailResponse.Timestamp resp = now Examples.w0.
Proof.
  assert (passes_validation (Verification Examples.verify_john)) as Hok
    by (simpl; split; discriminate).
  split; [exact Hok |].
  exact (provider_success_shaped Examples.Sprintf_2f_zero
           (Examples.delivering "msg_001")
           (Verification Examples.verify_john) Examples.w0 Hok).
Defined.

(** C3, as stated, fails on two counts.  When the provider succeeds with
    "msg_001" the response carries the status "sent", not "Sent"; and when
    the provider succeeds with an empty identifier the response carries an
    empty [MessageId]. *)
Lemma provider_success_not_as_claimed :
  (passes_validation (Verification Examples.verify_john) ∧
   (∀ variables,
      respond (resendClient (Examples.delivering "msg_001")) (calls Examples.w0)
        (CallSendWithTemplate "user@example.com" "verification-email" variables) =
        ("msg_001", None)) ∧
   result (dispatch Examples.Sprintf_2f_zero (Examples.delivering "msg_001")
             (Verification Examples.verify_john)) Examples.w0 =
     (Some {| SendEmailResponse.MessageId := "msg_001";
              SendEmailResponse.Success := true;
              SendEmailResponse.Error := "";
              SendEmailResponse.Status := "sent";
              SendEmailResponse.Timestamp := now Examples.w0 |}, None) ∧
   ¬ ∃ resp,
       responds (result (dispatch Examples.Sprintf_2f_zero
                           (Examples.delivering "msg_001")
                           (Verification Examples.verify_john)) Examples.w0)
                resp ∧
       SendEmailResponse.Success resp = true ∧
       SendEmailResponse.MessageId resp = "msg_001" ∧
       SendEmailResponse.Error resp = "" ∧
       SendEmailResponse.Status resp = "Sent") ∧
  (passes_validation (Verification Examples.verify_john) ∧
   (∀ variables,
      respond (resendClient (Examples.delivering "")) (calls Examples.w0)
        (CallSendWithTemplate "user@example.com" "verification-email" variables) =
        ("", None)) ∧
   ¬ ∃ resp,
       responds (result (dispatch Examples.Sprintf_2f_zero (Examples.delivering "")
                           (Verification Examples.verify_john)) Examples.w0)
                resp ∧
       SendEmailResponse.Success resp = true ∧
       SendEmailResponse.MessageId resp ≠ "").
Proof.
  assert (passes_validation (Verification Examples.verify_john)) as Hok
    by (simpl; split; discriminate).
  split.
  - split; [exact Hok |]. split; [reflexivity |]. split; [reflexivity |].
    intros (resp & Hresp & _ & _ & _ & Hstatus).
    unfold responds in Hresp. injection Hresp as Hresp. subst resp.
    discriminate Hstatus.
  - split; [exact Hok |]. split; [reflexivity |].
    intros (resp & Hresp & _ & Hid).
    unfold responds in Hresp. injection Hresp as Hresp. subst resp.
    apply Hid. reflexivity.
Qed.

(** C4, as the handlers have it.  Every response returned by any
    operation comes from one provider call and copies its answer:
    [Success = true] implies that [Error] is empty and [MessageId] is the
    identifier the provider returned; [Success = false] implies that
    [MessageId] is empty and [Error] is the text of the provider's error;
    [MessageId] and [Error] are never both populated, and each is
    non-empty when what the provider returned is. *)
Theorem response_invariant
    (Sprintf_2f : float64 → string) (s : EmailServer) (r : Request) (w : World)
    (resp : SendEmailResponse.t) :
  responds (result (dispatch Sprintf_2f s r) w) resp →
  (SendEmailResponse.Success resp = true → SendEmailResponse.Error resp = "") ∧
  (SendEmailResponse.Success resp = false → SendEmailResponse.MessageId resp = "") ∧
  ¬ (SendEmailResponse.MessageId resp ≠ "" ∧ SendEmailResponse.Error resp ≠ "") ∧
  ∃ call messageID err,
    calls (after (dispatch Sprintf_2f s r) w) = calls w ++ [call] ∧
    respond (resendClient s) (calls w) call = (messageID, err) ∧
    match err with
    | None =>
        SendEmailResponse.Success resp = true ∧
        SendEmailResponse.MessageId resp = messageID ∧
        (messageID ≠ "" → SendEmailResponse.MessageId resp ≠ "")
    | Some e =>
        SendEmailResponse.Success resp = false ∧
        SendEmailResponse.Error resp = error.Error e ∧
        (error.Error e ≠ "" → SendEmailResponse.Error resp ≠ "")
    end.
Proof.
  intros Hresp. unfold responds in Hresp.
  destruct (decide (passes_validation r)) as [Hok | Hbad].
  - destruct (dispatch_accepts Sprintf_2f s r w Hok) as (call & Hcalls & Hres).
    rewrite Hres in Hresp. injection Hresp as Hresp. subst resp.
    destruct (respond (resendClient s) (calls w) call) as [messageID [e|]] eqn:Hanswer;
      simpl.
    + repeat split; try discriminate; try tauto.
      exists call, messageID, (Some e). repeat split; trivial.
    + repeat split; try discriminate; try tauto.
      exists call, messageID, None. repeat split; trivial.
  - destruct (dispatch_rejects Sprintf_2f s r w Hbad) as [[msg Hrej] _].
    rewrite Hrej in Hresp. discriminate Hresp.
Qed.

Lemma response_invariant_witness :
  responds
    (result (dispatch Examples.Sprintf_2f_zero (Examples.delivering "msg_001")
               (Welcome Examples.welcome_john)) Examples.w0)
    {| SendEmailResponse.MessageId := "msg_001";
       SendEmailResponse.Success := true;
       SendEmailResponse.Error := "";
       SendEmailResponse.Status := "sent";
       SendEmailResponse.Timestamp := now Examples.w0 |} ∧
  ∃ call messageID err,
    calls (after (dispatch Examples.Sprintf_2f_zero (Examples.delivering "msg_001")
                    (Welcome Examples.welcome_john)) Examples.w0) =
      calls Examples.w0 ++ [call] ∧
    respond (resendClient (Examples.delivering "msg_001")) (calls Examples.w0) call =
      (messageID, err).
Proof.
  assert (responds
    (result (dispatch Examples.Sprintf_2f_zero (Examples.delivering "msg_001")
               (Welcome Examples.welcome_john)) Examples.w0)
    {| SendEmailResponse.MessageId := "msg_001";
       SendEmailResponse.Success := true;
       SendEmailResponse.Error := "";
       SendEmailResponse.Status := "sent";
       SendEmailResponse.Timestamp := now Examples.w0 |}) as Hresp
    by reflexivity.
  split; [exact Hresp |].
  destruct (response_invariant Examples.Sprintf_2f_zero
              (Examples.delivering "msg_001") (Welcome Examples.welcome_john)
              Examples.w0 _ Hresp)
    as (_ & _ & _ & call & messageID & err & Hcalls & Hanswer & _).
  exists call, messageID, err. split; [exact Hcalls | exact Hanswer].
Defined.

(** C4, as stated, fails: non-emptiness is the provider's, not the
    handlers'.  When the provider succeeds with an empty identifier the
    response has [Success = true] with [MessageId] and [Error] both empty;
    when it fails with an error of empty text the response has
    [Success = false] with both empty again. *)
Lemma response_fields_both_empty :
  (∃ resp,
     responds (result (dispatch Examples.Sprintf_2f_zero (Examples.delivering "")
                         (Welcome Examples.welcome_john)) Examples.w0) resp ∧
     SendEmailResponse.Success resp = true ∧
     ¬ (SendEmailResponse.Error resp = "" ∧ SendEmailResponse.MessageId resp ≠ "") ∧
     SendEmailResponse.MessageId resp = "" ∧ SendEmailResponse.Error resp = "") ∧
  (∃ resp,
     responds (result (dispatch Examples.Sprintf_2f_zero (Examples.failing "")
                         (Welcome Examples.welcome_john)) Examples.w0) resp ∧
     SendEmailResponse.Success resp = false ∧
     ¬ (SendEmailResponse.MessageId resp = "" ∧ SendEmailResponse.Error resp ≠ "") ∧
     SendEmailResponse.MessageId resp = "" ∧ SendEmailResponse.Error resp = "").
Proof.
  split; eexists; (split; [reflexivity |]); simpl;
    (split; [reflexivity |]); (split; [| split; reflexivity]);
    intros [? Hne]; apply Hne; reflexivity.
Qed.

(** ** More on the handlers *)

(** X1. A SendTemplateEmail request with a recipient is rejected with
    [InvalidArgument] if and only if its template identifier is empty. *)
Theorem template_id_required
    (s : EmailServer) (req : SendTemplateEmailRequest.t) (w : World) :
  SendTemplateEmailRequest.To req ≠ "" →
  rejected_with codes.InvalidArgument (result (SendTemplateEmail s req) w) ↔
  SendTemplateEmailRequest.TemplateId req = "".
Proof.
  intros Hto. unfold rejected_with. destruct req as [to templateID variables].
  simpl in *. unfold_handlers. simpl. split_guards; simpl; try tauto.
  - split; [tauto | intros _; eexists; reflexivity].
  - split; [| tauto]. split_answer; intros [msg Hrej]; discriminate.
Qed.

Lemma template_id_required_witness :
  SendTemplateEmailRequest.To Examples.template_no_id ≠ "" ∧
  rejected_with codes.InvalidArgument
    (result (SendTemplateEmail (Examples.delivering "msg_001")
               Examples.template_no_id) Examples.w0).
Proof.
  assert (SendTemplateEmailRequest.To Examples.template_no_id ≠ "") as Hto
    by (simpl; discriminate).
  split; [exact Hto |].
  apply (template_id_required (Examples.delivering "msg_001")
           Examples.template_no_id Examples.w0 Hto).
  reflexivity.
Defined.

(** X2. A valid SendTemplateEmail request reaches the provider with its
    own template identifier and its own variables, nothing added and
    nothing removed: the constants of the fixed-purpose handlers
    ([app_name] and the like) are not supplied. *)
Theorem template_variables_forwarded
    (s : EmailServer) (req : SendTemplateEmailRequest.t) (w : World) :
  passes_validation (Template req) →
  ∃ variables : gmap string string,
    calls (after (SendTemplateEmail s req) w) =
      calls w ++ [CallSendWithTemplate (SendTemplateEmailRequest.To req)
                    (SendTemplateEmailRequest.TemplateId req) variables] ∧
    ∀ key, variables !! key = SendTemplateEmailRequest.Variables req !! key.
Proof.
  intros [Hto Hid]. destruct req as [to templateID variables]. simpl in *.
  unfold_handlers. simpl. split_guards; simpl; try tauto.
  exists variables. split; [split_answer; reflexivity | reflexivity].
Qed.

Lemma template_variables_forwarded_witness :
  passes_validation (Template Examples.template_custom) ∧
  ∃ variables : gmap string string,
    calls (after (SendTemplateEmail (Examples.delivering "msg_001")
                    Examples.template_custom) Examples.w0) =
      [CallSendWithTemplate "a@b.com" "monthly-statement" variables] ∧
    variables !! "month" = Some "October" ∧
    variables !! "app_name" = None.
Proof.
  assert (passes_validation (Template Examples.template_custom)) as Hok
    by (simpl; split; discriminate).
  split; [exact Hok |].
  destruct (template_variables_forwarded (Examples.delivering "msg_001")
              Examples.template_custom Examples.w0 Hok)
    as (variables & Hcalls & Hsame).
  exists variables. split; [exact Hcalls |].
  split; rewrite Hsame; reflexivity.
Defined.

(** X3. A valid SendEmail request reaches the provider's [SendEmail] with
    its recipient, subject and both bodies as they are; a body that is
    empty is forwarded empty. *)
Theorem raw_message_forwarded
    (s : EmailServer) (req : SendEmailRequest.t) (w : World) :
  passes_validation (RawMessage req) →
  calls (after (SendEmail s req) w) =
    calls w ++ [CallSendEmail (SendEmailRequest.To req) (SendEmailRequest.Subject req)
                  (SendEmailRequest.HtmlBody req) (SendEmailRequest.TextBody req)].
Proof.
  intros (Hto & Hsubject & Hbody). destruct req as [to subject html text].
  simpl in *. unfold_handlers. simpl. split_guards; simpl; try tauto.
  split_answer; reflexivity.
Qed.

Lemma raw_message_forwarded_witness :
  passes_validation (RawMessage Examples.raw_hello) ∧
  calls (after (SendEmail (Examples.delivering "msg_001") Examples.raw_hello)
               Examples.w0) =
    [CallSendEmail "a@b.com" "Hello" "" "plain text"].
Proof.
  assert (passes_validation (RawMessage Examples.raw_hello)) as Hok.
  { simpl. repeat split; try discriminate. intros [_ Htext]. discriminate Htext. }
  split; [exact Hok |].
  exact (raw_message_forwarded (Examples.delivering "msg_001") Examples.raw_hello
           Examples.w0 Hok).
Defined.

(** X4. A valid SendVerificationEmail request with a verification URL of
    its own keeps it: [verification_url] is that URL, the token is not
    appended to it, and the token still travels as [verification_token]. *)
Theorem explicit_verification_url_kept
    (s : EmailServer) (req : SendVerificationEmailRequest.t) (w : World) :
  passes_validation (Verification req) →
  SendVerificationEmailRequest.VerificationUrl req ≠ "" →
  ∃ variables : gmap string string,
    calls (after (SendVerificationEmail s req) w) =
      calls w ++ [CallSendWithTemplate (SendVerificationEmailRequest.To req)
                    "verification-email" variables] ∧
    variables !! "verification_url" =
      Some (SendVerificationEmailRequest.VerificationUrl req) ∧
    variables !! "verification_token" =
      Some (SendVerificationEmailRequest.VerificationToken req) ∧
    variables !! "user_name" = Some (SendVerificationEmailRequest.UserName req).
Proof.
  intros [Hto Htok] Hurl. destruct req as [to token url name]. simpl in *.
  unfold_handlers. simpl. split_guards; simpl; try tauto.
  eexists. split; [split_answer; reflexivity | repeat split; reflexivity].
Qed.

Lemma explicit_verification_url_kept_witness :
  ∃ variables : gmap string string,
    calls (after (SendVerificationEmail (Examples.delivering "msg_001")
                    Examples.verify_explicit) Examples.w0) =
      [CallSendWithTemplate "user@example.com" "verification-email" variables] ∧
    variables !! "verification_url" = Some "https://cloud9.money/v/abc123" ∧
    variables !! "verification_token" = Some "abc123" ∧
    variables !! "user_name" = Some "John Doe".
Proof.
  apply (explicit_verification_url_kept (Examples.delivering "msg_001")
           Examples.verify_explicit Examples.w0);
    simpl; [split; discriminate | discriminate].
Defined.

(** X5. A valid SendPasswordResetEmail request with an empty reset URL
    gets "https://app.cloud9.money/reset-password?token=" followed by its
    reset token as [reset_url]; a request with a reset URL of its own
    keeps it.  The token travels as [reset_token] either way. *)
Theorem reset_url_default_or_explicit
    (s : EmailServer) (req : SendPasswordResetEmailRequest.t) (w : World) :
  passes_validation (PasswordReset req) →
  ∃ variables : gmap string string,
    calls (after (SendPasswordResetEmail s req) w) =
      calls w ++ [CallSendWithTemplate (SendPasswordResetEmailRequest.To req)
                    "password-reset" variables] ∧
    variables !! "reset_url" =
      Some (if decide (SendPasswordResetEmailRequest.ResetUrl req = "")
            then "https://app.cloud9.money/reset-password?token=" +:+
                 SendPasswordResetEmailRequest.ResetToken req
            else SendPasswordResetEmailRequest.ResetUrl req) ∧
    variables !! "reset_token" = Some (SendPasswordResetEmailRequest.ResetToken req) ∧
    variables !! "user_name" = Some (SendPasswordResetEmailRequest.UserName req).
Proof.
  intros [Hto Htok]. destruct req as [to token url name expiry]. simpl in *.
  unfold_handlers. simpl.
  destruct (decide (to = "")); [tauto |].
  destruct (decide (token = "")); [tauto |].
  eexists. split; [split_answer; reflexivity | repeat split; reflexivity].
Qed.

Lemma reset_url_default_or_explicit_witness :
  ∃ variables : gmap string string,
    calls (after (SendPasswordResetEmail (Examples.delivering "msg_001")
                    (SendPasswordResetEmailRequest.mk
                       "user@example.com" "r3s3t" "" "John Doe" 30))
                 Examples.w0) =
      [CallSendWithTemplate "user@example.com" "password-reset" variables] ∧
    variables !! "reset_url" =
      Some "https://app.cloud9.money/reset-password?token=r3s3t".
Proof.
  destruct (reset_url_default_or_explicit (Examples.delivering "msg_001")
              (SendPasswordResetEmailRequest.mk
                 "user@example.com" "r3s3t" "" "John Doe" 30) Examples.w0)
    as (variables & Hcalls & Hurl & _).
  - simpl. split; discriminate.
  - exists variables. split; [exact Hcalls | exact Hurl].
Defined.

(** X6. The [expiry_minutes] variable of a password reset is the decimal
    rendering of the request's [ExpiryMinutes], whatever its value: no
    default stands in for an unset field, which is rendered "0"; and the
    rendering tells any two values apart. *)
Theorem expiry_minutes_rendered
    (s : EmailServer) (req : SendPasswordResetEmailRequest.t) (w : World) :
  passes_validation (PasswordReset req) →
  ∃ variables : gmap string string,
    calls (after (SendPasswordResetEmail s req) w) =
      calls w ++ [CallSendWithTemplate (SendPasswordResetEmailRequest.To req)
                    "password-reset" variables] ∧
    variables !! "expiry_minutes" =
      Some (Sprintf_d (SendPasswordResetEmailRequest.ExpiryMinutes req)) ∧
    (SendPasswordResetEmailRequest.ExpiryMinutes req = 0 →
     variables !! "expiry_minutes" = Some "0") ∧
    ∀ n : int32,
      variables !! "expiry_minutes" = Some (Sprintf_d n) →
      n = SendPasswordResetEmailRequest.ExpiryMinutes req.
Proof.
  intros [Hto Htok]. destruct req as [to token url name expiry]. simpl in *.
  unfold_handlers. simpl.
  destruct (decide (to = "")); [tauto |].
  destruct (decide (token = "")); [tauto |].
  eexists. split; [split_answer; reflexivity |].
  split; [reflexivity |]. split.
  - intros ->. reflexivity.
  - intros k Hk. change (Some (Sprintf_d expiry) = Some (Sprintf_d k)) in Hk.
    injection Hk as Hk. unfold Sprintf_d in Hk.
    symmetry. exact (pretty_Z_inj _ _ Hk).
Qed.

Lemma expiry_minutes_rendered_witness :
  ∃ variables : gmap string string,
    calls (after (SendPasswordResetEmail (Examples.delivering "msg_001")
                    Examples.reset_explicit) Examples.w0) =
      [CallSendWithTemplate "user@example.com" "password-reset" variables] ∧
    variables !! "expiry_minutes" = Some "0".
Proof.
  destruct (expiry_minutes_rendered (Examples.delivering "msg_001")
              Examples.reset_explicit Examples.w0)
    as (variables & Hcalls & Hexpiry & _).
  - simpl. split; discriminate.
  - exists variables. split; [exact Hcalls | exact Hexpiry].
Defined.

(** X7. The variables a fixed-purpose handler hands to the provider have
    a fixed set of keys, whatever the request holds: five for a
    verification, six for a password reset, four for a welcome and eight
    for a transaction notification; [support_email] goes with the first two
    only. *)
Theorem variable_key_sets
    (Sprintf_2f : float64 → string) (s : EmailServer) (r : Request) (w : World) :
  passes_validation r →
  ∃ call,
    calls (after (dispatch Sprintf_2f s r) w) = calls w ++ [call] ∧
    match r, call with
    | Verification _, CallSendWithTemplate _ _ variables =>
        dom variables =
          ({[ "user_name"; "verification_url"; "verification_token"; "app_name";
              "support_email" ]} : gset string)
    | PasswordReset _, CallSendWithTemplate _ _ variables =>
        dom variables =
          ({[ "user_name"; "reset_url"; "reset_token"; "expiry_minutes"; "app_name";
              "support_email" ]} : gset string)
    | Welcome _, CallSendWithTemplate _ _ variables =>
        dom variables =
          ({[ "user_name"; "account_type"; "app_name"; "dashboard_url" ]}
             : gset string)
    | TransactionNotification _, CallSendWithTemplate _ _ variables =>
        dom variables =
          ({[ "transaction_id"; "transaction_type"; "amount"; "currency";
              "recipient_name"; "timestamp"; "balance"; "app_name" ]} : gset string)
    | Template req, CallSendWithTemplate _ _ variables =>
        dom variables = dom (SendTemplateEmailRequest.Variables req)
    | RawMessage _, CallSendEmail _ _ _ _ => True
    | _, _ => False
    end.
Proof.
  intros Hok.
  destruct r as [req|req|req|req|req|req]; destruct req; simpl in Hok;
    unfold_handlers; simpl; split_guards; simpl; try tauto;
    (eexists; split; [split_answer; reflexivity |]); simpl; trivial;
    rewrite !dom_insert_L, dom_empty_L; set_solver.
Qed.

Lemma variable_key_sets_witness :
  passes_validation (Welcome Examples.welcome_john) ∧
  ∃ call,
    calls (after (dispatch Examples.Sprintf_2f_zero (Examples.delivering "msg_001")
                    (Welcome Examples.welcome_john)) Examples.w0) =
      calls Examples.w0 ++ [call] ∧
    match call with
    | CallSendWithTemplate _ _ variables =>
        dom variables =
          ({[ "user_name"; "account_type"; "app_name"; "dashboard_url" ]}
             : gset string)
    | CallSendEmail _ _ _ _ => False
    end.
Proof.
  assert (passes_validation (Welcome Examples.welcome_john)) as Hok
    by (simpl; discriminate).
  split; [exact Hok |].
  exact (variable_key_sets Examples.Sprintf_2f_zero (Examples.delivering "msg_001")
           (Welcome Examples.welcome_john) Examples.w0 Hok).
Defined.

(** X8. A transaction notification with a recipient reaches the provider
    with every request field under its key: the strings as they are, the
    amount and the balance each as [Sprintf("%.2f", _)] renders them; it
    carries [app_name] and no [support_email]. *)
Theorem transaction_variables
    (Sprintf_2f : float64 → string) (s : EmailServer)
    (req : SendTransactionNotificationRequest.t) (w : World) :
  SendTransactionNotificationRequest.To req ≠ "" →
  ∃ variables : gmap string string,
    calls (after (SendTransactionNotification Sprintf_2f s req) w) =
      calls w ++ [CallSendWithTemplate (SendTransactionNotificationRequest.To req)
                    "transaction-notification" variables] ∧
    variables !! "transaction_type" =
      Some (SendTransactionNotificationRequest.TransactionType req) ∧
    variables !! "amount" =
      Some (Sprintf_2f (SendTransactionNotificationRequest.Amount req)) ∧
    variables !! "currency" = Some (SendTransactionNotificationRequest.Currency req) ∧
    variables !! "recipient_name" =
      Some (SendTransactionNotificationRequest.RecipientName req) ∧
    variables !! "timestamp" = Some (SendTransactionNotificationRequest.Timestamp req) ∧
    variables !! "balance" =
      Some (Sprintf_2f (SendTransactionNotificationRequest.Balance req)) ∧
    variables !! "app_name" = Some "Cloud9" ∧
    variables !! "support_email" = None.
Proof.
  intros Hto. destruct req. simpl in *. unfold_handlers. simpl.
  split_guards; simpl; try tauto.
  eexists. split; [split_answer; reflexivity | repeat split; reflexivity].
Qed.

Lemma transaction_variables_witness :
  ∃ variables : gmap string string,
    calls (after (SendTransactionNotification Examples.Sprintf_2f_zero
                    (Examples.delivering "msg_001") Examples.txn_no_id)
                 Examples.w0) =
      [CallSendWithTemplate "a@b.com" "transaction-notification" variables] ∧
    variables !! "amount" = Some "0.00" ∧
    variables !! "currency" = Some "KES".
Proof.
  destruct (transaction_variables Examples.Sprintf_2f_zero
              (Examples.delivering "msg_001") Examples.txn_no_id Examples.w0)
    as (variables & Hcalls & _ & Hamount & Hcurrency & _).
  - simpl. discriminate.
  - exists variables. split; [exact Hcalls |]. split; assumption.
Defined.

(** ** Replies *)


(** X10. In every response the status string and the success flag agree:
    [Status] is "sent" exactly when [Success] is true and "failed" exactly
    when it is false; and [Timestamp] is the reading of the clock. *)
Theorem success_status_consistent
    (Sprintf_2f : float64 → string) (s : EmailServer) (r : Request) (w : World)
    (resp : SendEmailResponse.t) :
  responds (result (dispatch Sprintf_2f s r) w) resp →
  (SendEmailResponse.Success resp = true ↔ SendEmailResponse.Status resp = "sent") ∧
  (SendEmailResponse.Success resp = false ↔ SendEmailResponse.Status resp = "failed") ∧
  SendEmailResponse.Timestamp resp = now w.
Proof.
  intros Hresp. unfold responds in Hresp.
  destruct (decide (passes_validation r)) as [Hok | Hbad].
  - destruct (dispatch_accepts Sprintf_2f s r w Hok) as (call & _ & Hres).
    rewrite Hres in Hresp. injection Hresp as Hresp. subst resp.
    destruct (respond (resendClient s) (calls w) call) as [messageID [e|]];
      simpl; repeat split; intros; trivial; discriminate.
  - destruct (dispatch_rejects Sprintf_2f s r w Hbad) as [[msg Hrej] _].
    rewrite Hrej in Hresp. discriminate Hresp.
Qed.

Lemma success_status_consistent_witness :
  responds
    (result (dispatch Examples.Sprintf_2f_zero (Examples.failing "quota exceeded")
               (Welcome Examples.welcome_john)) Examples.w0)
    {| SendEmailResponse.MessageId := "";
       SendEmailResponse.Success := false;
       SendEmailResponse.Error := "quota exceeded";
       SendEmailResponse.Status := "failed";
       SendEmailResponse.Timestamp := 1761782400 |} ∧
  (false = true ↔ "failed" = "sent") ∧ (false = false ↔ "failed" = "failed") ∧
  1761782400 = now Examples.w0.
Proof.
  assert (responds
    (result (dispatch Examples.Sprintf_2f_zero (Examples.failing "quota exceeded")
               (Welcome Examples.welcome_john)) Examples.w0)
    {| SendEmailResponse.MessageId := "";
       SendEmailResponse.Success := false;
       SendEmailResponse.Error := "quota exceeded";
       SendEmailResponse.Status := "failed";
       SendEmailResponse.Timestamp := 1761782400 |}) as Hresp
    by reflexivity.
  split; [exact Hresp |].
  exact (success_status_consistent Examples.Sprintf_2f_zero
           (Examples.failing "quota exceeded") (Welcome Examples.welcome_john)
           Examples.w0 _ Hresp).
Defined.

(** X11. A rejected SendEmail request is told the first field that is
    missing, in the order recipient, subject, body: an empty recipient
    hides an empty subject, and an empty subject hides an empty body. *)
Theorem raw_message_rejection_message
    (s : EmailServer) (req : SendEmailRequest.t) (w : World) :
  ¬ passes_validation (RawMessage req) →
  result (SendEmail s req) w =
    (None,
     Some (status.mkStatus codes.InvalidArgument
             (if decide (SendEmailRequest.To req = "") then
                "recipient email is required"
              else if decide (SendEmailRequest.Subject req = "") then
                "subject is required"
              else "email body is required"))).
Proof.
  intros Hbad. destruct req as [to subject html text]. simpl in *.
  unfold_handlers. simpl.
  destruct (decide (to = "")); [reflexivity |].
  destruct (decide (subject = "")); [reflexivity |].
  destruct (decide (html = "" ∧ text = "")); [reflexivity |].
  exfalso. apply Hbad. tauto.
Qed.

Lemma raw_message_rejection_message_witness :
  ¬ passes_validation (RawMessage (SendEmailRequest.mk "" "" "" "")) ∧
  result (SendEmail (Examples.delivering "msg_001")
            (SendEmailRequest.mk "" "" "" "")) Examples.w0 =
    (None, Some (status.mkStatus codes.InvalidArgument "recipient email is required")).
Proof.
  assert (¬ passes_validation (RawMessage (SendEmailRequest.mk "" "" "" "")))
    as Hbad.
  { simpl. intros [Hto _]. apply Hto. reflexivity. }
  split; [exact Hbad |].
  exact (raw_message_rejection_message (Examples.delivering "msg_001")
           (SendEmailRequest.mk "" "" "" "") Examples.w0 Hbad).
Defined.

(** ** The log, the call record and the clock *)

(** X12. Every request is logged on arrival, before it is validated: the
    first line a handler writes is at level Info and starts with the
    recipient, also when the request is then rejected, in which case it is
    the only line. *)
Theorem request_always_logged
    (Sprintf_2f : float64 → string) (s : EmailServer) (r : Request) (w : World) :
  ∃ received later extra,
    logged (after (dispatch Sprintf_2f s r) w) = logged w ++ received :: later ∧
    level received = LevelInfo ∧
    args received = [AStr "to"; AStr (recipient r)] ++ extra ∧
    (later = [] ∨ passes_validation r).
Proof.
  destruct r as [req|req|req|req|req|req]; destruct req;
    unfold_handlers; simpl; split_guards; simpl;
    try (do 3 eexists;
         split; [reflexivity | split; [reflexivity | split; [reflexivity |]]];
         left; reflexivity);
    split_answer; simpl; rewrite <- ?app_assoc; simpl;
    (do 3 eexists;
     split; [reflexivity | split; [reflexivity | split; [reflexivity |]]];
     right; tauto).
Qed.

(** X13. When the provider fails, the handler writes exactly one more
    line, at level Error, carrying the provider's error and the
    recipient. *)
Theorem provider_error_logged
    (Sprintf_2f : float64 → string) (s : EmailServer) (r : Request) (w : World) :
  passes_validation r →
  ∃ call,
    calls (after (dispatch Sprintf_2f s r) w) = calls w ++ [call] ∧
    ∀ messageID err,
      respond (resendClient s) (calls w) call = (messageID, Some err) →
      ∃ received failed extra,
        logged (after (dispatch Sprintf_2f s r) w) = logged w ++ [received; failed] ∧
        level failed = LevelError ∧
        args failed =
          [AStr "error"; AErr err; AStr "to"; AStr (recipient r)] ++ extra.
Proof.
  intros Hok.
  destruct r as [req|req|req|req|req|req]; destruct req; simpl in Hok;
    unfold_handlers; simpl; split_guards; simpl; try tauto;
    (eexists; split; [split_answer; reflexivity |]);
    intros messageID err Hanswer; simpl in Hanswer; rewrite Hanswer;
    simpl; rewrite <- ?app_assoc; simpl;
    (do 3 eexists; split; [reflexivity | split; reflexivity]).
Qed.

Lemma provider_error_logged_witness :
  passes_validation (Welcome Examples.welcome_john) ∧
  ∃ call,
    calls (after (dispatch Examples.Sprintf_2f_zero (Examples.failing "quota exceeded")
                    (Welcome Examples.welcome_john)) Examples.w0) =
      calls Examples.w0 ++ [call] ∧
    ∀ messageID err,
      respond (resendClient (Examples.failing "quota exceeded"))
        (calls Examples.w0) call = (messageID, Some err) →
      ∃ received failed extra,
        logged (after (dispatch Examples.Sprintf_2f_zero
                         (Examples.failing "quota exceeded")
                         (Welcome Examples.welcome_john)) Examples.w0) =
          logged Examples.w0 ++ [received; failed] ∧
        level failed = LevelError ∧
        args failed =
          [AStr "error"; AErr err; AStr "to"; AStr "user@example.com"] ++ extra.
Proof.
  assert (passes_validation (Welcome Examples.welcome_john)) as Hok
    by (simpl; discriminate).
  split; [exact Hok |].
  exact (provider_error_logged Examples.Sprintf_2f_zero
           (Examples.failing "quota exceeded") (Welcome Examples.welcome_john)
           Examples.w0 Hok).
Defined.

(** X14. When the provider succeeds, SendEmail, SendVerificationEmail and
    SendPasswordResetEmail write a second line, at level Info, with the
    message identifier and the recipient; SendWelcomeEmail,
    SendTransactionNotification and SendTemplateEmail write nothing after
    the line of arrival. *)
Theorem provider_success_logged
    (Sprintf_2f : float64 → string) (s : EmailServer) (r : Request) (w : World) :
  passes_validation r →
  ∃ call,
    calls (after (dispatch Sprintf_2f s r) w) = calls w ++ [call] ∧
    ∀ messageID,
      respond (resendClient s) (calls w) call = (messageID, None) →
      ∃ received,
        match r with
        | RawMessage _ | Verification _ | PasswordReset _ =>
            ∃ sent,
              logged (after (dispatch Sprintf_2f s r) w) =
                logged w ++ [received; sent] ∧
              level sent = LevelInfo ∧
              args sent =
                [AStr "messageID"; AStr messageID; AStr "to"; AStr (recipient r)]
        | Welcome _ | TransactionNotification _ | Template _ =>
            logged (after (dispatch Sprintf_2f s r) w) = logged w ++ [received]
        end.
Proof.
  intros Hok.
  destruct r as [req|req|req|req|req|req]; destruct req; simpl in Hok;
    unfold_handlers; simpl; split_guards; simpl; try tauto;
    (eexists; split; [split_answer; reflexivity |]);
    intros messageID Hanswer; simpl in Hanswer; rewrite Hanswer; simpl;
    rewrite <- ?app_assoc; simpl;
    eexists; try reflexivity;
    (eexists; split; [reflexivity | split; reflexivity]).
Qed.

Lemma provider_success_logged_witness :
  passes_validation (Verification Examples.verify_john) ∧
  ∃ call,
    calls (after (dispatch Examples.Sprintf_2f_zero (Examples.delivering "msg_001")
                    (Verification Examples.verify_john)) Examples.w0) =
      calls Examples.w0 ++ [call] ∧
    ∀ messageID,
      respond (resendClient (Examples.delivering "msg_001"))
        (calls Examples.w0) call = (messageID, None) →
      ∃ received sent,
        logged (after (dispatch Examples.Sprintf_2f_zero
                         (Examples.delivering "msg_001")
                         (Verification Examples.verify_john)) Examples.w0) =
          logged Examples.w0 ++ [received; sent] ∧
        level sent = LevelInfo ∧
        args sent =
          [AStr "messageID"; AStr messageID; AStr "to"; AStr "user@example.com"].
Proof.
  assert (passes_validation (Verification Examples.verify_john)) as Hok
    by (simpl; split; discriminate).
  split; [exact Hok |].
  exact (provider_success_logged Examples.Sprintf_2f_zero
           (Examples.delivering "msg_001") (Verification Examples.verify_john)
           Examples.w0 Hok).
Defined.

(** X15. A handler only ever adds to the record: what was logged and
    which calls were made before is kept, at most one provider call and at
    most two log lines are added (at least one line), and the clock is not
    touched.  The provider is never called a second time, whatever its
    answer. *)
Theorem dispatch_only_appends
    (Sprintf_2f : float64 → string) (s : EmailServer) (r : Request) (w : World) :
  ∃ new_calls new_lines,
    calls (after (dispatch Sprintf_2f s r) w) = calls w ++ new_calls ∧
    (length new_calls ≤ 1)%nat ∧
    logged (after (dispatch Sprintf_2f s r) w) = logged w ++ new_lines ∧
    (1 ≤ length new_lines ≤ 2)%nat ∧
    now (after (dispatch Sprintf_2f s r) w) = now w.
Proof.
  destruct r as [req|req|req|req|req|req]; destruct req;
    unfold_handlers; simpl; split_guards; simpl;
    try (exists []; eexists; rewrite app_nil_r;
         repeat split; try reflexivity; simpl; lia);
    split_answer; simpl; rewrite <- ?app_assoc; simpl;
    (eexists; eexists; repeat split; try reflexivity; simpl; lia).
Qed.

(** No handler touches the clock. *)
Lemma dispatch_keeps_clock
    (Sprintf_2f : float64 → string) (s : EmailServer) (r : Request) (w : World) :
  now (after (dispatch Sprintf_2f s r) w) = now w.
Proof.
  destruct r as [req|req|req|req|req|req]; destruct req;
    unfold_handlers; simpl; split_guards; simpl; try reflexivity;
    split_answer; reflexivity.
Qed.

(** X16. The handlers keep nothing between requests.  With a provider
    whose answer does not depend on the calls made before, the reply to a
    request is the same whether or not another request was served
    first. *)
Theorem no_cross_talk
    (Sprintf_2f : float64 → string) (s : EmailServer) (r1 r2 : Request) (w : World) :
  (∀ history history' call,
     respond (resendClient s) history call = respond (resendClient s) history' call) →
  result (dispatch Sprintf_2f s r2) (after (dispatch Sprintf_2f s r1) w) =
    result (dispatch Sprintf_2f s r2) w.
Proof.
  intros Hsame.
  assert (∀ w1 w2, now w1 = now w2 →
            result (dispatch Sprintf_2f s r2) w1 = result (dispatch Sprintf_2f s r2) w2)
    as Hclock.
  { intros w1 w2 Hnow.
    destruct r2 as [req|req|req|req|req|req]; destruct req;
      unfold_handlers; simpl; split_guards; simpl; try reflexivity;
      match goal with
      | |- context [ResendClient.SendEmail ?c (calls w1) ?a ?b ?d ?e] =>
          pose proof (Hsame (calls w1) (calls w2) (CallSendEmail a b d e)) as Heq
      | |- context [ResendClient.SendWithTemplate ?c (calls w1) ?a ?b ?d] =>
          pose proof (Hsame (calls w1) (calls w2) (CallSendWithTemplate a b d)) as Heq
      end;
      simpl in Heq; rewrite Heq; split_answer; simpl; rewrite Hnow; reflexivity. }
  apply Hclock. apply dispatch_keeps_clock.
Qed.

Lemma no_cross_talk_witness :
  (∀ history history' call,
     respond (resendClient (Examples.delivering "msg_001")) history call =
     respond (resendClient (Examples.delivering "msg_001")) history' call) ∧
  result (dispatch Examples.Sprintf_2f_zero (Examples.delivering "msg_001")
            (Welcome Examples.welcome_john))
         (after (dispatch Examples.Sprintf_2f_zero (Examples.delivering "msg_001")
                   (Verification Examples.verify_john)) Examples.w0) =
    result (dispatch Examples.Sprintf_2f_zero (Examples.delivering "msg_001")
              (Welcome Examples.welcome_john)) Examples.w0.
Proof.
  assert (∀ history history' call,
     respond (resendClient (Examples.delivering "msg_001")) history call =
     respond (resendClient (Examples.delivering "msg_001")) history' call) as Hsame.
  { intros history history' [to subject html text | to templateID variables];
      reflexivity. }
  split; [exact Hsame |].
  exact (no_cross_talk Examples.Sprintf_2f_zero (Examples.delivering "msg_001")
           (Verification Examples.verify_john) (Welcome Examples.welcome_john)
           Examples.w0 Hsame).
Defined.

(** ** The client *)

Section Client.

Variable Status_Error : status.Status → string.
Variable Format_RFC3339 : int64 → string.

(** Each method of the client makes one call, with the request it builds,
    and turns the reply into its outcome, all five the same way. *)
Lemma EmailClient_call_run (c : EmailClient.t) (call : ClientCall) (w : World) :
  EmailClient_call Status_Error Format_RFC3339 c call w =
    (outcome_of Status_Error
       (result (EmailServiceClient_call (EmailClient.client c)
                  (request_built Format_RFC3339 (now w) call)) w),
     after (EmailServiceClient_call (EmailClient.client c)
              (request_built Format_RFC3339 (now w) call)) w).
Proof.
  destruct call; unfold_client;
    unfold result, after, time_Now_Unix, mbind, M_bind, mret, M_ret; simpl;
    match goal with
    | |- context [?stub ?c ?req w] =>
        destruct (stub c req w) as [[[resp|] [err|]] w']
    end; simpl; try reflexivity;
    destruct (SendEmailResponse.Success resp); reflexivity.
Qed.

(** A client served in process runs the handler of the request. *)
Lemma in_process_call (Sprintf_2f : float64 → string) (s : EmailServer)
    (r : Request) :
  EmailServiceClient_call (in_process Sprintf_2f s) r = dispatch Sprintf_2f s r.
Proof. destruct r; reflexivity. Qed.

End Client.

(** X17. A method of the client returns [nil] exactly when the call it
    made gave a response, without error, whose [Success] is true: the
    caller is never told success for a delivery the server reported as
    failed. *)
Theorem client_nil_iff_success
    (Status_Error : status.Status → string) (Format_RFC3339 : int64 → string)
    (c : EmailClient.t) (call : ClientCall) (w : World) :
  result (EmailClient_call Status_Error Format_RFC3339 c call) w = Returns None ↔
  ∃ resp,
    result (EmailServiceClient_call (EmailClient.client c)
              (request_built Format_RFC3339 (now w) call)) w = (Some resp, None) ∧
    SendEmailResponse.Success resp = true.
Proof.
  unfold result at 1. rewrite EmailClient_call_run. simpl.
  destruct (result _ w) as [[resp|] [err|]]; simpl.
  - split; [discriminate | intros (resp' & Heq & _); discriminate].
  - destruct (SendEmailResponse.Success resp) eqn:Hsuccess; simpl.
    + split; [intros _; exists resp; split; trivial | reflexivity].
    + split; [discriminate |].
      intros (resp' & Heq & Htrue). injection Heq as <-. congruence.
  - split; [discriminate | intros (resp' & Heq & _); discriminate].
  - split; [discriminate | intros (resp' & Heq & _); discriminate].
Qed.

(** X18. The two kinds of failure reach the caller of the client apart.
    An error of the call is wrapped, with its status kept, under the
    message "gRPC call failed: ..." and any response that came with it is
    ignored; a response whose [Success] is false becomes an error with the
    message "email send failed: " followed by the response's [Error]. *)
Theorem client_failure_kinds
    (Status_Error : status.Status → string) (Format_RFC3339 : int64 → string)
    (c : EmailClient.t) (call : ClientCall) (w : World) :
  (∀ resp st,
     result (EmailServiceClient_call (EmailClient.client c)
               (request_built Format_RFC3339 (now w) call)) w = (resp, Some st) →
     result (EmailClient_call Status_Error Format_RFC3339 c call) w =
       Returns (Some (wrapError ("gRPC call failed: " +:+ Status_Error st) st))) ∧
  (∀ resp,
     result (EmailServiceClient_call (EmailClient.client c)
               (request_built Format_RFC3339 (now w) call)) w = (Some resp, None) →
     SendEmailResponse.Success resp = false →
     result (EmailClient_call Status_Error Format_RFC3339 c call) w =
       Returns (Some (errorString
                  ("email send failed: " +:+ SendEmailResponse.Error resp)))).
Proof.
  unfold result at 2 4. rewrite EmailClient_call_run. simpl.
  split.
  - intros resp st ->. destruct resp; reflexivity.
  - intros resp -> Hfalse. simpl. rewrite Hfalse. reflexivity.
Qed.

Lemma client_failure_kinds_witness :
  result (EmailClient_call Examples.Status_Error Examples.Format_RFC3339_w0
            (Examples.unreachable
               (status.mkStatus codes.Unavailable "connection refused"))
            (CallWelcomeEmail "newuser@example.com" "Jane Doe" "personal"))
         Examples.w0 =
    Returns (Some (wrapError
      "gRPC call failed: rpc error: code = Unavailable desc = connection refused"
      (status.mkStatus codes.Unavailable "connection refused"))) ∧
  result (EmailClient_call Examples.Status_Error Examples.Format_RFC3339_w0
            (Examples.answering
               (SendEmailResponse.mk "" false "quota exceeded" "failed" 1761782400))
            (CallWelcomeEmail "newuser@example.com" "Jane Doe" "personal"))
         Examples.w0 =
    Returns (Some (errorString "email send failed: quota exceeded")).
Proof.
  split.
  - apply (proj1 (client_failure_kinds Examples.Status_Error
                    Examples.Format_RFC3339_w0
                    (Examples.unreachable
                       (status.mkStatus codes.Unavailable "connection refused"))
                    (CallWelcomeEmail "newuser@example.com" "Jane Doe" "personal")
                    Examples.w0) None
             (status.mkStatus codes.Unavailable "connection refused")).
    reflexivity.
  - apply (proj2 (client_failure_kinds Examples.Status_Error
                    Examples.Format_RFC3339_w0
                    (Examples.answering
                       (SendEmailResponse.mk "" false "quota exceeded" "failed"
                          1761782400))
                    (CallWelcomeEmail "newuser@example.com" "Jane Doe" "personal")
                    Examples.w0)
             (SendEmailResponse.mk "" false "quota exceeded" "failed" 1761782400));
      reflexivity.
Defined.

(** ** Client and server together *)

(** X19. Served by the handlers, no method of the client panics: a reply
    of the server without error always carries a response. *)
Theorem in_process_never_panics
    (Status_Error : status.Status → string) (Format_RFC3339 : int64 → string)
    (Sprintf_2f : float64 → string) (s : EmailServer) (call : ClientCall)
    (w : World) :
  result (EmailClient_call Status_Error Format_RFC3339
            (EmailClient.mk (in_process Sprintf_2f s)) call) w ≠ Panics.
Proof.
  unfold result. rewrite EmailClient_call_run. simpl.
  rewrite in_process_call.
  set (r := request_built Format_RFC3339 (now w) call).
  destruct (decide (passes_validation r)) as [Hok | Hbad].
  - destruct (dispatch_accepts Sprintf_2f s r w Hok) as (pc & _ & Hres).
    rewrite Hres. simpl. destruct (negb _); discriminate.
  - destruct (dispatch_rejects Sprintf_2f s r w Hbad) as [[msg Hrej] _].
    rewrite Hrej. discriminate.
Qed.

(** X20. Served by the handlers, a method of the client whose request
    fails validation returns the wrapped [InvalidArgument] status, and the
    provider is not called. *)
Theorem in_process_invalid_request
    (Status_Error : status.Status → string) (Format_RFC3339 : int64 → string)
    (Sprintf_2f : float64 → string) (s : EmailServer) (call : ClientCall)
    (w : World) :
  ¬ passes_validation (request_built Format_RFC3339 (now w) call) →
  (∃ msg,
     result (EmailClient_call Status_Error Format_RFC3339
               (EmailClient.mk (in_process Sprintf_2f s)) call) w =
       Returns (Some (wrapError
         ("gRPC call failed: " +:+
          Status_Error (status.mkStatus codes.InvalidArgument msg))
         (status.mkStatus codes.InvalidArgument msg)))) ∧
  calls (after (EmailClient_call Status_Error Format_RFC3339
                  (EmailClient.mk (in_process Sprintf_2f s)) call) w) = calls w.
Proof.
  intros Hbad. unfold result, after. rewrite EmailClient_call_run. simpl.
  rewrite in_process_call.
  destruct (dispatch_rejects Sprintf_2f s _ w Hbad) as [[msg Hrej] Hcalls].
  split; [| exact Hcalls].
  exists msg. rewrite Hrej. reflexivity.
Qed.

Lemma in_process_invalid_request_witness :
  ¬ passes_validation
      (request_built Examples.Format_RFC3339_w0 (now Examples.w0)
         (CallVerificationEmail "user@example.com" "" "John Doe")) ∧
  (∃ msg,
     result (EmailClient_call Examples.Status_Error Examples.Format_RFC3339_w0
               (EmailClient.mk (in_process Examples.Sprintf_2f_zero
                                  (Examples.delivering "msg_001")))
               (CallVerificationEmail "user@example.com" "" "John Doe"))
            Examples.w0 =
       Returns (Some (wrapError
         ("gRPC call failed: " +:+
          Examples.Status_Error (status.mkStatus codes.InvalidArgument msg))
         (status.mkStatus codes.InvalidArgument msg)))) ∧
  calls (after (EmailClient_call Examples.Status_Error Examples.Format_RFC3339_w0
                  (EmailClient.mk (in_process Examples.Sprintf_2f_zero
                                     (Examples.delivering "msg_001")))
                  (CallVerificationEmail "user@example.com" "" "John Doe"))
               Examples.w0) = calls Examples.w0.
Proof.
  assert (¬ passes_validation
      (request_built Examples.Format_RFC3339_w0 (now Examples.w0)
         (CallVerificationEmail "user@example.com" "" "John Doe"))) as Hbad.
  { simpl. intros [_ Htok]. apply Htok. reflexivity. }
  split; [exact Hbad |].
  exact (in_process_invalid_request Examples.Status_Error Examples.Format_RFC3339_w0
           Examples.Sprintf_2f_zero (Examples.delivering "msg_001")
           (CallVerificationEmail "user@example.com" "" "John Doe") Examples.w0 Hbad).
Defined.

(** X21. Served by the handlers, a method of the client whose request
    passes validation makes the provider called once, and tells its caller
    what the provider did: [nil] when the provider gave no error, and
    otherwise an error with the message "email send failed: " followed by
    the text of the provider's error. *)
Theorem in_process_valid_request
    (Status_Error : status.Status → string) (Format_RFC3339 : int64 → string)
    (Sprintf_2f : float64 → string) (s : EmailServer) (call : ClientCall)
    (w : World) :
  passes_validation (request_built Format_RFC3339 (now w) call) →
  ∃ pc,
    calls (after (EmailClient_call Status_Error Format_RFC3339
                    (EmailClient.mk (in_process Sprintf_2f s)) call) w) =
      calls w ++ [pc] ∧
    result (EmailClient_call Status_Error Format_RFC3339
              (EmailClient.mk (in_process Sprintf_2f s)) call) w =
      match respond (resendClient s) (calls w) pc with
      | (_, Some err) =>
          Returns (Some (errorString ("email send failed: " +:+ error.Error err)))
      | (_, None) => Returns None
      end.
Proof.
  intros Hok. unfold result, after. rewrite EmailClient_call_run. simpl.
  rewrite in_process_call.
  destruct (dispatch_accepts Sprintf_2f s _ w Hok) as (pc & Hcalls & Hres).
  exists pc. split; [exact Hcalls |].
  rewrite Hres. destruct (respond (resendClient s) (calls w) pc) as [messageID [e|]];
    reflexivity.
Qed.

Lemma in_process_valid_request_witness :
  passes_validation
    (request_built Examples.Format_RFC3339_w0 (now Examples.w0)
       (CallWelcomeEmail "newuser@example.com" "Jane Doe" "personal")) ∧
  ∃ pc,
    calls (after (EmailClient_call Examples.Status_Error Examples.Format_RFC3339_w0
                    (EmailClient.mk (in_process Examples.Sprintf_2f_zero
                                       (Examples.failing "quota exceeded")))
                    (CallWelcomeEmail "newuser@example.com" "Jane Doe" "personal"))
                 Examples.w0) =
      calls Examples.w0 ++ [pc] ∧
    result (EmailClient_call Examples.Status_Error Examples.Format_RFC3339_w0
              (EmailClient.mk (in_process Examples.Sprintf_2f_zero
                                 (Examples.failing "quota exceeded")))
              (CallWelcomeEmail "newuser@example.com" "Jane Doe" "personal"))
           Examples.w0 =
      match respond (resendClient (Examples.failing "quota exceeded"))
              (calls Examples.w0) pc with
      | (_, Some err) =>
          Returns (Some (errorString ("email send failed: " +:+ error.Error err)))
      | (_, None) => Returns None
      end.
Proof.
  assert (passes_validation
    (request_built Examples.Format_RFC3339_w0 (now Examples.w0)
       (CallWelcomeEmail "newuser@example.com" "Jane Doe" "personal"))) as Hok
    by (simpl; discriminate).
  split; [exact Hok |].
  exact (in_process_valid_request Examples.Status_Error Examples.Format_RFC3339_w0
           Examples.Sprintf_2f_zero (Examples.failing "quota exceeded")
           (CallWelcomeEmail "newuser@example.com" "Jane Doe" "personal")
           Examples.w0 Hok).
Defined.

(** X22. The client never supplies a URL of its own.  Served by the
    handlers, a verification sent through it always carries
    "https://app.cloud9.money/verify?token=" followed by the token, and a
    password reset always carries
    "https://app.cloud9.money/reset-password?token=" followed by the reset
    token, with the caller's expiry in minutes in decimal. *)
Theorem client_urls_always_default
    (Status_Error : status.Status → string) (Format_RFC3339 : int64 → string)
    (Sprintf_2f : float64 → string) (s : EmailServer) (w : World) :
  (∀ email token userName,
     email ≠ "" → token ≠ "" →
     ∃ variables : gmap string string,
       calls (after (EmailClient_call Status_Error Format_RFC3339
                       (EmailClient.mk (in_process Sprintf_2f s))
                       (CallVerificationEmail email token userName)) w) =
         calls w ++ [CallSendWithTemplate email "verification-email" variables] ∧
       variables !! "verification_url" =
         Some ("https://app.cloud9.money/verify?token=" +:+ token)) ∧
  (∀ email resetToken userName expiryMinutes,
     email ≠ "" → resetToken ≠ "" →
     ∃ variables : gmap string string,
       calls (after (EmailClient_call Status_Error Format_RFC3339
                       (EmailClient.mk (in_process Sprintf_2f s))
                       (CallPasswordResetEmail email resetToken userName
                          expiryMinutes)) w) =
         calls w ++ [CallSendWithTemplate email "password-reset" variables] ∧
       variables !! "reset_url" =
         Some ("https://app.cloud9.money/reset-password?token=" +:+ resetToken) ∧
       variables !! "expiry_minutes" = Some (Sprintf_d expiryMinutes)).
Proof.
  split.
  - intros email token userName Hemail Htoken.
    unfold after. rewrite EmailClient_call_run. simpl.
    unfold_handlers. simpl.
    destruct (decide (email = "")); [tauto |].
    destruct (decide (token = "")); [tauto |].
    destruct (decide ("" = "")) as [_ | Hne]; [| now destruct Hne].
    eexists. split; [split_answer; reflexivity | reflexivity].
  - intros email resetToken userName expiryMinutes Hemail Htoken.
    unfold after. rewrite EmailClient_call_run. simpl.
    unfold_handlers. simpl.
    destruct (decide (email = "")); [tauto |].
    destruct (decide (resetToken = "")); [tauto |].
    destruct (decide ("" = "")) as [_ | Hne]; [| now destruct Hne].
    eexists. split; [split_answer; reflexivity | split; reflexivity].
Qed.

Lemma client_urls_always_default_witness :
  ∃ variables : gmap string string,
    calls (after (EmailClient_call Examples.Status_Error Examples.Format_RFC3339_w0
                    (EmailClient.mk (in_process Examples.Sprintf_2f_zero
                                       (Examples.delivering "msg_001")))
                    (CallVerificationEmail "user@example.com"
                       "verification-token-123" "John Doe")) Examples.w0) =
      calls Examples.w0 ++
      [CallSendWithTemplate "user@example.com" "verification-email" variables] ∧
    variables !! "verification_url" =
      Some ("https://app.cloud9.money/verify?token=" +:+ "verification-token-123").
Proof.
  apply (proj1 (client_urls_always_default Examples.Status_Error
                  Examples.Format_RFC3339_w0 Examples.Sprintf_2f_zero
                  (Examples.delivering "msg_001") Examples.w0));
    discriminate.
Defined.

(** X23. The client leaves the recipient's name out of a transaction
    notification and stamps it with its own clock.  Served by the
    handlers, the provider receives [recipient_name] empty, [timestamp] the
    RFC 3339 rendering of the clock at the call, and the transaction
    identifier as given, an empty one included. *)
Theorem client_transaction_notification
    (Status_Error : status.Status → string) (Format_RFC3339 : int64 → string)
    (Sprintf_2f : float64 → string) (s : EmailServer) (w : World)
    (email txnID txnType : string) (amount : float64) (currency : string)
    (balance : float64) :
  email ≠ "" →
  ∃ variables : gmap string string,
    calls (after (EmailClient_call Status_Error Format_RFC3339
                    (EmailClient.mk (in_process Sprintf_2f s))
                    (CallTransactionNotification email txnID txnType amount
                       currency balance)) w) =
      calls w ++ [CallSendWithTemplate email "transaction-notification" variables] ∧
    variables !! "recipient_name" = Some "" ∧
    variables !! "timestamp" = Some (Format_RFC3339 (now w)) ∧
    variables !! "transaction_id" = Some txnID ∧
    variables !! "amount" = Some (Sprintf_2f amount) ∧
    variables !! "balance" = Some (Sprintf_2f balance).
Proof.
  intros Hemail. unfold after. rewrite EmailClient_call_run. simpl.
  unfold_handlers. simpl.
  destruct (decide (email = "")); [tauto |].
  eexists. split; [split_answer; reflexivity | repeat split; reflexivity].
Qed.

Lemma client_transaction_notification_witness :
  ∃ variables : gmap string string,
    calls (after (EmailClient_call Examples.Status_Error Examples.Format_RFC3339_w0
                    (EmailClient.mk (in_process Examples.Sprintf_2f_zero
                                       (Examples.delivering "msg_001")))
                    (CallTransactionNotification "user@example.com" "txn-123456"
                       "credit" (S754_zero false) "KES" (S754_zero false)))
                 Examples.w0) =
      calls Examples.w0 ++
      [CallSendWithTemplate "user@example.com" "transaction-notification"
         variables] ∧
    variables !! "recipient_name" = Some "" ∧
    variables !! "timestamp" = Some "2025-10-30T00:00:00Z" ∧
    variables !! "transaction_id" = Some "txn-123456" ∧
    variables !! "amount" = Some "0.00" ∧
    variables !! "balance" = Some "0.00".
Proof.
  apply (client_transaction_notification Examples.Status_Error
           Examples.Format_RFC3339_w0 Examples.Sprintf_2f_zero
           (Examples.delivering "msg_001") Examples.w0).
  discriminate.
Defined.

(** ** Configuration *)

(** X24. [getEnv] gives the fallback both for a variable that is not set
    and for one that is set to the empty string: the two cannot be told
    apart, and an empty value cannot be configured. *)
Theorem getEnv_empty_is_unset
    (environ : gmap string string) (key fallback : string) :
  getEnv (delete key environ) key fallback = fallback ∧
  getEnv (<[key := ""]> environ) key fallback = fallback.
Proof.
  unfold getEnv, os_Getenv. rewrite lookup_delete_eq, lookup_insert_eq. simpl.
  destruct (decide ("" ≠ "")) as [Hne | _]; [now destruct Hne |].
  split; reflexivity.
Qed.

(** X25. [getEnv] gives the value of a variable set to a non-empty
    string, whatever the fallback; and setting one variable does not
    change what is read for another. *)
Theorem getEnv_set
    (environ : gmap string string) (key other value fallback : string) :
  value ≠ "" →
  getEnv (<[key := value]> environ) key fallback = value ∧
  (other ≠ key →
   getEnv (<[key := value]> environ) other fallback = getEnv environ other fallback).
Proof.
  intros Hvalue. unfold getEnv, os_Getenv. split.
  - rewrite lookup_insert_eq. simpl.
    destruct (decide (value ≠ "")); [reflexivity | tauto].
  - intros Hother. rewrite lookup_insert_ne by congruence. reflexivity.
Qed.

Lemma getEnv_set_witness :
  getEnv (<["GRPC_PORT" := "6000"]> ∅) "GRPC_PORT" "50051" = "6000" ∧
  getEnv (<["GRPC_PORT" := "6000"]> ∅) "HTTP_PORT" "8080" = getEnv ∅ "HTTP_PORT" "8080".
Proof.
  destruct (getEnv_set ∅ "GRPC_PORT" "HTTP_PORT" "6000" "50051") as [Hset Hother];
    [discriminate |].
  split; [exact Hset |].
  destruct (getEnv_set ∅ "GRPC_PORT" "HTTP_PORT" "6000" "8080") as [_ Hother'];
    [discriminate |].
  apply Hother'. discriminate.
Defined.

(** X26. With a non-empty fallback [getEnv] never gives the empty
    string, whatever the environment: the ports and the endpoint the two
    programs read are always set. *)
Theorem getEnv_nonempty
    (environ : gmap string string) (key fallback : string) :
  fallback ≠ "" → getEnv environ key fallback ≠ "".
Proof.
  intros Hfallback. unfold getEnv.
  destruct (decide (os_Getenv environ key ≠ "")); assumption.
Qed.

Lemma getEnv_nonempty_witness :
  getEnv (<["GRPC_PORT" := ""]> ∅) "GRPC_PORT" "50051" ≠ "".
Proof.
  apply (getEnv_nonempty (<["GRPC_PORT" := ""]> ∅) "GRPC_PORT" "50051").
  discriminate.
Defined.
